(** * Maidenhead locators: coordinates, bearing and distance

    A shallow embedding of [bearing.go] (package [maidenhead]) and the
    properties of its locator grammar, coordinate derivation and geodesy
    entry points.

    Conventions of the embedding:
    - a Go [string] is a sequence of bytes: Rocq's [string], whose
      characters are 8-bit [ascii] values; [len] counts bytes;
    - a [rune] is an integer ([Z]); [[]rune(s)] decodes UTF-8 and
      [string(runes)] encodes it, as the Go runtime does;
    - a [float64] is an IEEE-754 binary64 number: [spec_float] at
      precision 53 and maximal exponent 1024, every operation rounded to
      nearest-even on its own (no fused multiply-add);
    - a Go [error] is represented by its message ([err.Error()]);
    - a run-time panic (index out of range) is an outcome of its own;
    - what the package calls in the Go distribution and what differs
      between Unicode versions or architectures is a parameter: the case
      tables above ASCII ([CaseTables]), [math.Sin], [math.Cos],
      [math.Atan2] ([MathLib]), and what [int64(x)] gives for an [x] that
      [int64] cannot hold ([Conversions]).

    The file has the embedding first, then the vocabulary of the
    statements, then the properties. *)

From Stdlib Require Import ZArith List String Ascii Bool Lia QArith Qround Qabs.
From Stdlib Require Import DecimalString.
From Stdlib Require Import Floats.SpecFloat.
Import ListNotations.

Local Open Scope string_scope.
Local Open Scope list_scope.
Local Open Scope Z_scope.

(** Concatenation of strings, as [+] on Go strings and the verbs of [fmt]. *)
Notation "a +++ b" := (String.append a b) (right associativity, at level 60).

(* ================================================================= *)
(** ** Results of Go calls *)

(** A nil-able Go [error], by its message. *)
Definition error := option string.

(** The result of a call returning [(T, error)], or panicking. *)
Inductive outcome (A : Type) : Type :=
| Ok (a : A)
| Err (msg : string)
| Panic (reason : string).

Arguments Ok {A} a.
Arguments Err {A} msg.
Arguments Panic {A} reason.

Definition bind {A B} (x : outcome A) (k : A -> outcome B) : outcome B :=
  match x with
  | Ok a => k a
  | Err m => Err m
  | Panic r => Panic r
  end.

Notation "x <- c ;; k" := (bind c (fun x => k))
  (at level 61, c at next level, right associativity).


(* ================================================================= *)
(** ** Bytes, runes and UTF-8 *)

Definition byte_val (c : ascii) : Z := Z.of_N (N_of_ascii c).
Definition byte_of (z : Z) : ascii := ascii_of_N (Z.to_N z).

Definition bytes (s : string) : list Z := map byte_val (list_ascii_of_string s).
Definition of_bytes (l : list Z) : string :=
  string_of_list_ascii (map byte_of l).

(** [len(s)]: the number of bytes. *)
Definition len (s : string) : Z := Z.of_nat (String.length s).

(** [%d] of [fmt]. *)
Definition fmt_d (z : Z) : string := NilZero.string_of_int (Z.to_int z).

Definition rune := Z.

(** [utf8.RuneError], U+FFFD. *)
Definition RuneError : rune := 0xFFFD.

Definition in_range (lo hi b : Z) : bool := (lo <=? b) && (b <=? hi).

(** [utf8.DecodeRuneInString]: the first rune of a byte sequence and its
    width; an invalid or truncated encoding yields [(RuneError, 1)]. *)
Definition decodeRune (bs : list Z) : rune * nat :=
  match bs with
  | [] => (RuneError, 0%nat)
  | b0 :: t =>
    if b0 <? 0x80 then (b0, 1%nat)
    else if in_range 0xC2 0xDF b0 then
      match t with
      | b1 :: _ =>
        if in_range 0x80 0xBF b1
        then (Z.lor (Z.shiftl (Z.land b0 0x1F) 6) (Z.land b1 0x3F), 2%nat)
        else (RuneError, 1%nat)
      | _ => (RuneError, 1%nat)
      end
    else if in_range 0xE0 0xEF b0 then
      match t with
      | b1 :: b2 :: _ =>
        if in_range (if b0 =? 0xE0 then 0xA0 else 0x80)
                    (if b0 =? 0xED then 0x9F else 0xBF) b1
           && in_range 0x80 0xBF b2
        then (Z.lor (Z.lor (Z.shiftl (Z.land b0 0x0F) 12)
                           (Z.shiftl (Z.land b1 0x3F) 6))
                    (Z.land b2 0x3F), 3%nat)
        else (RuneError, 1%nat)
      | _ => (RuneError, 1%nat)
      end
    else if in_range 0xF0 0xF4 b0 then
      match t with
      | b1 :: b2 :: b3 :: _ =>
        if in_range (if b0 =? 0xF0 then 0x90 else 0x80)
                    (if b0 =? 0xF4 then 0x8F else 0xBF) b1
           && in_range 0x80 0xBF b2 && in_range 0x80 0xBF b3
        then (Z.lor (Z.lor (Z.lor (Z.shiftl (Z.land b0 0x07) 18)
                                  (Z.shiftl (Z.land b1 0x3F) 12))
                           (Z.shiftl (Z.land b2 0x3F) 6))
                    (Z.land b3 0x3F), 4%nat)
        else (RuneError, 1%nat)
      | _ => (RuneError, 1%nat)
      end
    else (RuneError, 1%nat)
  end.

(** The loop of [[]rune(s)]: decode a rune, skip its width, repeat. *)
Fixpoint decodeRunes (fuel : nat) (bs : list Z) : list rune :=
  match fuel, bs with
  | _, [] => []
  | O, _ => []
  | S fuel', _ =>
    let '(r, w) := decodeRune bs in r :: decodeRunes fuel' (skipn w bs)
  end.

(** [[]rune(s)]. *)
Definition runes_of (s : string) : list rune :=
  decodeRunes (String.length s) (bytes s).

(** [utf8.AppendRune]: negative runes, surrogates and runes above U+10FFFF
    are encoded as U+FFFD. *)
Definition encodeRune (r : rune) : list Z :=
  if in_range 0 0x7F r then [r]
  else if in_range 0 0x7FF r then
    [Z.lor 0xC0 (Z.shiftr r 6); Z.lor 0x80 (Z.land r 0x3F)]
  else if (r <? 0) || (0x10FFFF <? r) || in_range 0xD800 0xDFFF r then
    [0xEF; 0xBF; 0xBD]
  else if r <=? 0xFFFF then
    [Z.lor 0xE0 (Z.shiftr r 12); Z.lor 0x80 (Z.land (Z.shiftr r 6) 0x3F);
     Z.lor 0x80 (Z.land r 0x3F)]
  else
    [Z.lor 0xF0 (Z.shiftr r 18); Z.lor 0x80 (Z.land (Z.shiftr r 12) 0x3F);
     Z.lor 0x80 (Z.land (Z.shiftr r 6) 0x3F); Z.lor 0x80 (Z.land r 0x3F)].

(** [string(runes)]. *)
Definition string_of_runes (rs : list rune) : string :=
  of_bytes (flat_map encodeRune rs).

(* ================================================================= *)
(** ** Package [unicode] *)

(** The case mappings of runes above ASCII come from the Unicode tables of
    the Go distribution, which are no part of this package: they are a
    parameter of the development. *)
Class CaseTables : Type := {
  upperNonASCII : rune -> rune;
  lowerNonASCII : rune -> rune
}.

(** [unicode.ToUpper]: the ASCII fast path is written out; U+FFFD, which
    stands for every undecodable byte, is not a letter. *)
Definition ToUpper `{CaseTables} (r : rune) : rune :=
  if r <=? 0x7F then
    if in_range 97 122 r then r - 32 else r
  else if r =? RuneError then r
  else upperNonASCII r.

(** [unicode.ToLower]. *)
Definition ToLower `{CaseTables} (r : rune) : rune :=
  if r <=? 0x7F then
    if in_range 65 90 r then r + 32 else r
  else if r =? RuneError then r
  else lowerNonASCII r.

(** [unicode.IsUpper] on Latin-1 (the runes [rune(s[pos])] can be):
    A-Z, U+00C0-U+00D6 and U+00D8-U+00DE. *)
Definition IsUpper (r : rune) : bool :=
  in_range 65 90 r || in_range 0xC0 0xD6 r || in_range 0xD8 0xDE r.

(** [unicode.IsLower] on Latin-1: a-z, U+00B5, U+00DF-U+00F6 and
    U+00F8-U+00FF. *)
Definition IsLower (r : rune) : bool :=
  in_range 97 122 r || (r =? 0xB5) || in_range 0xDF 0xF6 r
  || in_range 0xF8 0xFF r.

(** [unicode.IsDigit] on Latin-1: 0-9. *)
Definition IsDigit (r : rune) : bool := in_range 48 57 r.

(* ================================================================= *)
(** ** The locator grammar *)

(** [s[pos]] where the source has checked [0 <= pos < len(s)]. *)
Definition byte_at (s : string) (pos : Z) : Z :=
  match String.get (Z.to_nat pos) s with
  | Some c => byte_val c
  | None => 0
  end.

Definition isUppercaseAtPosition (s : string) (pos : Z) : bool * error :=
  if (pos <? 0) || (len s <=? pos) then
    (false, Some ("position " +++ fmt_d pos +++ " is out of range for string '"
                  +++ s +++ "'"))
  else (IsUpper (byte_at s pos), None).

Definition isUpperARAtPosition (s : string) (pos : Z) : bool * error :=
  match isUppercaseAtPosition s pos with
  | (true, None) => (in_range 65 82 (byte_at s pos), None)
  | (ok, err) => (ok, err)
  end.

Definition isLowercaseAtPosition (s : string) (pos : Z) : bool * error :=
  if (pos <? 0) || (len s <=? pos) then
    (false, Some ("position " +++ fmt_d pos
                  +++ " out of bounds for string of length " +++ fmt_d (len s)))
  else (IsLower (byte_at s pos), None).

Definition isLowerAXAtPosition (s : string) (pos : Z) : bool * error :=
  match isLowercaseAtPosition s pos with
  | (true, None) => (in_range 97 120 (byte_at s pos), None)
  | (ok, err) => (ok, err)
  end.

Definition isDigitAtPosition (input : string) (position : Z) : bool * error :=
  if (position <? 0) || (len input <=? position) then
    (false, Some ("position " +++ fmt_d position
                  +++ " is out of range for string length "
                  +++ fmt_d (len input)))
  else (IsDigit (byte_at input position), None).

(** One entry of the table of [validateInput]. *)
Record validator : Type := {
  position : Z;
  validate : string -> Z -> bool * error;
  errMsg : string
}.

Definition validators : list validator :=
  [ {| position := 0; validate := isUpperARAtPosition;
       errMsg := "first character must be A-R" |};
    {| position := 1; validate := isUpperARAtPosition;
       errMsg := "second character must be A-R" |};
    {| position := 2; validate := isDigitAtPosition;
       errMsg := "third character must be a digit" |};
    {| position := 3; validate := isDigitAtPosition;
       errMsg := "fourth character must be a digit" |};
    {| position := 4; validate := isLowerAXAtPosition;
       errMsg := "fifth character must be a-x" |};
    {| position := 5; validate := isLowerAXAtPosition;
       errMsg := "sixth character must be a-x" |} ].

Definition formatError (str reason : string) : string :=
  "invalid gridsquare format: " +++ str +++ " (" +++ reason +++ ")".

(** The [for _, v := range validators] loop. *)
Fixpoint runValidators (str : string) (vs : list validator) : error :=
  match vs with
  | [] => None
  | v :: rest =>
    match validate v str (position v) with
    | (_, Some e) => Some e
    | (false, None) => Some (formatError str (errMsg v))
    | (true, None) => runValidators str rest
    end
  end.

Definition validateInput (str : string) : error :=
  if negb (len str =? 6) then Some (formatError str "must be 6 characters")
  else runValidators str validators.

(** The message of the run-time panic of an index expression. *)
Definition index_out_of_range (i n : nat) : string :=
  "runtime error: index out of range [" +++ fmt_d (Z.of_nat i)
  +++ "] with length " +++ fmt_d (Z.of_nat n).

(** [runes[i] = f(runes[i])]: reading past the end panics. *)
Definition update_rune (f : rune -> rune) (i : nat) (rs : list rune)
  : outcome (list rune) :=
  match nth_error rs i with
  | Some r => Ok (firstn i rs ++ f r :: skipn (S i) rs)
  | None => Panic (index_out_of_range i (List.length rs))
  end.

Definition normalizeGridSquare `{CaseTables} (s : string) : outcome string :=
  if negb (len s =? 6) then Ok s
  else
    let runes := runes_of s in
    runes <- update_rune ToUpper 0 runes ;;
    runes <- update_rune ToUpper 1 runes ;;
    runes <- update_rune ToLower 4 runes ;;
    runes <- update_rune ToLower 5 runes ;;
    Ok (string_of_runes runes).

(* ================================================================= *)
(** ** [float64] *)

Definition prec : Z := 53.
Definition emax : Z := 1024.

Definition float64 := spec_float.

Definition NaN : float64 := S754_nan.

Definition fadd : float64 -> float64 -> float64 := SFadd prec emax.
Definition fsub : float64 -> float64 -> float64 := SFsub prec emax.
Definition fmul : float64 -> float64 -> float64 := SFmul prec emax.
Definition fdiv : float64 -> float64 -> float64 := SFdiv prec emax.
Definition fneg : float64 -> float64 := SFopp.
Definition flt : float64 -> float64 -> bool := SFltb.
Definition fle : float64 -> float64 -> bool := SFleb.
Definition feq : float64 -> float64 -> bool := SFeqb.

(** [math.Sqrt]: the correctly rounded square root of IEEE-754. *)
Definition Sqrt : float64 -> float64 := SFsqrt prec emax.

Declare Scope f64_scope.
Delimit Scope f64_scope with f64.
Bind Scope f64_scope with float64.
Infix "+" := fadd : f64_scope.
Infix "-" := fsub : f64_scope.
Infix "*" := fmul : f64_scope.
Infix "/" := fdiv : f64_scope.
Notation "- x" := (fneg x) : f64_scope.
Infix "<?" := flt : f64_scope.

(** [float64(n)] of an integer. *)
Definition of_Z (n : Z) : float64 := binary_normalize prec emax n 0 false.

(** The [float64] nearest to a rational (ties to even): the conversion of
    an exact Go constant to [float64]. *)
Definition of_Q (q : Q) : float64 :=
  let round (s : bool) (n : positive) :=
    let '(m, e, l) :=
      SFdiv_core_binary prec emax (Zpos n) 0 (Zpos (Qden q)) 0 in
    binary_round_aux prec emax s m e l in
  match Qnum q with
  | Z0 => S754_zero false
  | Zpos n => round false n
  | Zneg n => round true n
  end.

(** A decimal literal: [dec 621371 6] is 0.621371. *)
Definition dec (digits : Z) (places : nat) : Q :=
  Qmake digits (Pos.pow 10 (Pos.of_nat places)).

(** The value of a finite [float64]. *)
Definition to_Q (x : float64) : option Q :=
  match x with
  | S754_zero _ => Some 0%Q
  | S754_finite s m e =>
    Some (if 0 <=? e then inject_Z (cond_Zopp s (Zpos m * 2 ^ e))
          else Qmake (cond_Zopp s (Zpos m)) (Z.to_pos (2 ^ (- e))))
  | _ => None
  end.

(** [math.Round]: the nearest integer, halves away from zero; zeros,
    infinities and NaN are returned as they are. *)
Definition Round (x : float64) : float64 :=
  match x with
  | S754_finite s m e =>
    if 0 <=? e then x
    else
      let d := 2 ^ (- e) in
      let n :=
        if d <=? 2 * (Zpos m mod d) then Zpos m / d + 1 else Zpos m / d in
      match n with
      | Z0 => S754_zero s
      | _ => of_Z (cond_Zopp s n)
      end
  | _ => x
  end.

(** [math.Ceil]: the least integer not below [x]; a negative fraction above
    -1 gives -0. *)
Definition Ceil (x : float64) : float64 :=
  match x with
  | S754_finite s m e =>
    if 0 <=? e then x
    else
      let d := 2 ^ (- e) in
      let n := if s then - (Zpos m / d) else (Zpos m + d - 1) / d in
      match n with
      | Z0 => S754_zero s
      | _ => of_Z n
      end
  | _ => x
  end.

(** [math.Mod]: the exact remainder of [x/y], with the sign of [x]. *)
Definition Mod (x y : float64) : float64 :=
  match x, y with
  | S754_nan, _ | _, S754_nan => NaN
  | S754_infinity _, _ => NaN
  | _, S754_zero _ => NaN
  | _, S754_infinity _ => x
  | S754_zero _, _ => x
  | S754_finite sx mx ex, S754_finite _ my ey =>
    let e := Z.min ex ey in
    match (Zpos mx * 2 ^ (ex - e)) mod (Zpos my * 2 ^ (ey - e)) with
    | Z0 => S754_zero sx
    | r => binary_normalize prec emax (cond_Zopp sx r) e false
    end
  end.

(** [math.Pi], the untyped constant of package [math]. *)
Definition PiQ : Q :=
  dec 314159265358979323846264338327950288419716939937510582097494459 62.

Definition Pi : float64 := of_Q PiQ.

(* ================================================================= *)
(** ** Constants of the package *)

Definition rounding : float64 := of_Z 100000.
Definition earthRad : float64 := of_Z 6371.
Definition kmToMiles : float64 := of_Q (dec 621371 6).

Definition asciiUpperA : float64 := of_Z 65.
Definition asciiLowerA : float64 := of_Z 97.
Definition fieldWidth : float64 := of_Z 20.
Definition fieldHeight : float64 := of_Z 10.
Definition squareWidth : float64 := of_Z 2.
Definition squareHeight : float64 := of_Z 1.
(** [5.0 / 60.0] and [2.5 / 60.0] are exact constant expressions. *)
Definition subsquareWidthQ : Q := (5 / 60)%Q.
Definition subsquareHeightQ : Q := (dec 25 1 / 60)%Q.
Definition subsquareWidth : float64 := of_Q subsquareWidthQ.
Definition subsquareHeight : float64 := of_Q subsquareHeightQ.

(* ================================================================= *)
(** ** Package [strconv] *)

Definition dquote : string := String (ascii_of_nat 34) EmptyString.

Fixpoint digits_val (acc : Z) (bs : list Z) : option Z :=
  match bs with
  | [] => Some acc
  | b :: t =>
    if in_range 48 57 b then digits_val (acc * 10 + (b - 48)) t else None
  end.

(** [strconv.Atoi]: an optional sign and decimal digits, within [int]
    (64 bits).  The quoting of the input in the error message is plain. *)
Definition Atoi (s : string) : outcome Z :=
  let failed (why : string) :=
    Err ("strconv.Atoi: parsing " +++ dquote +++ s +++ dquote +++ ": "
         +++ why) in
  match bytes s with
  | [] => failed "invalid syntax"
  | b :: t =>
    let '(neg, ds) :=
      if b =? 45 then (true, t) else if b =? 43 then (false, t)
      else (false, b :: t) in
    match ds, digits_val 0 ds with
    | [], _ | _, None => failed "invalid syntax"
    | _, Some n =>
      let v := if neg then - n else n in
      if in_range (- 2 ^ 63) (2 ^ 63 - 1) v then Ok v
      else failed "value out of range"
    end
  end.

(* ================================================================= *)
(** ** Coordinates of a locator *)

(** [runes[i]]: reading past the end panics. *)
Definition index (rs : list rune) (i : nat) : outcome rune :=
  match nth_error rs i with
  | Some r => Ok r
  | None => Panic (index_out_of_range i (List.length rs))
  end.

(** Lift a nil-able error: [if err != nil { return 0, err }]. *)
Definition check (e : error) : outcome unit :=
  match e with
  | None => Ok tt
  | Some m => Err m
  end.

Definition LatitudeFromGridSquare `{CaseTables} (gridSquare : string)
  : outcome float64 :=
  normalized <- normalizeGridSquare gridSquare ;;
  _ <- check (validateInput normalized) ;;
  let runes := runes_of normalized in
  r1 <- index runes 1 ;;
  let fieldLat := (of_Z r1 - asciiUpperA)%f64 in
  let fieldLatDegrees := (fieldLat * fieldHeight)%f64 in
  r3 <- index runes 3 ;;
  squareNum <- Atoi (string_of_runes [r3]) ;;
  let squareLatDegrees := (of_Z squareNum * squareHeight)%f64 in
  r5 <- index runes 5 ;;
  let subsquareLat := (of_Z r5 - asciiLowerA)%f64 in
  let subsquareLatDegrees := (subsquareLat * subsquareHeight)%f64 in
  (* [subsquareHeight / 2.0]: a constant expression, exact *)
  let centerOffset := of_Q (subsquareHeightQ / 2) in
  let latitude :=
    (fieldLatDegrees + squareLatDegrees + subsquareLatDegrees + centerOffset
     - of_Z 90)%f64 in
  Ok (Round (latitude * rounding) / rounding)%f64.

Definition LongitudeFromGridSquare `{CaseTables} (gridSquare : string)
  : outcome float64 :=
  normalized <- normalizeGridSquare gridSquare ;;
  _ <- check (validateInput normalized) ;;
  let runes := runes_of normalized in
  r0 <- index runes 0 ;;
  let fieldLong := (of_Z r0 - asciiUpperA)%f64 in
  let fieldLongDegrees := (fieldLong * fieldWidth)%f64 in
  r2 <- index runes 2 ;;
  squareNum <- Atoi (string_of_runes [r2]) ;;
  let squareLongDegrees := (of_Z squareNum * squareWidth)%f64 in
  r4 <- index runes 4 ;;
  let subsquareLong := (of_Z r4 - asciiLowerA)%f64 in
  let subsquareLongDegrees := (subsquareLong * subsquareWidth)%f64 in
  (* [subsquareWidth / 2.0]: a constant expression, exact *)
  let centerOffset := of_Q (subsquareWidthQ / 2) in
  let longitude :=
    (fieldLongDegrees + squareLongDegrees + subsquareLongDegrees + centerOffset
     - of_Z 180)%f64 in
  Ok (Round (longitude * rounding) / rounding)%f64.

(* ================================================================= *)
(** ** Package [math]: the transcendental functions *)

(** [math.Sin], [math.Cos] and [math.Atan2] belong to the Go distribution
    and differ between architectures; the geodesy functions are defined
    over any implementation of them. *)
Class MathLib : Type := {
  Sin : float64 -> float64;
  Cos : float64 -> float64;
  Atan2 : float64 -> float64 -> float64
}.

(* ================================================================= *)
(** ** Bearing and distance *)

Definition toRadians (degrees : float64) : float64 :=
  (degrees * Pi / of_Z 180)%f64.

Definition toDegrees (radians : float64) : float64 :=
  (radians * of_Z 180 / Pi)%f64.

Record gridSquareCoordinates : Type := {
  Latitude : float64;
  Longitude : float64
}.

Definition extractCoordinates `{CaseTables} (gridSquare : string)
  : outcome gridSquareCoordinates :=
  lat <- LatitudeFromGridSquare gridSquare ;;
  long <- LongitudeFromGridSquare gridSquare ;;
  Ok {| Latitude := lat; Longitude := long |}.

(** [fmt.Errorf("<context>: %w", err)] on the error path. *)
Definition wrap {A} (context : string) (x : outcome A) : outcome A :=
  match x with
  | Err m => Err (context +++ ": " +++ m)
  | _ => x
  end.

Definition CalculateBearing `{MathLib} (lat1 lon1 lat2 lon2 : float64)
  : float64 :=
  let lat1Rad := toRadians lat1 in
  let lon1Rad := toRadians lon1 in
  let lat2Rad := toRadians lat2 in
  let lon2Rad := toRadians lon2 in
  let dLon := (lon2Rad - lon1Rad)%f64 in
  let y := (Sin dLon * Cos lat2Rad)%f64 in
  let x := (Cos lat1Rad * Sin lat2Rad
            - Sin lat1Rad * Cos lat2Rad * Cos dLon)%f64 in
  let initialBearing := Atan2 y x in
  let initialBearing := toDegrees initialBearing in
  let initialBearing :=
    if (initialBearing <? of_Z 0)%f64 then (initialBearing + of_Z 360)%f64
    else initialBearing in
  (Round (initialBearing * of_Z 10) / of_Z 10)%f64.

Definition GetShortPathBearing `{CaseTables} `{MathLib}
  (localGridSquare remoteGridSquare : string) : outcome float64 :=
  localCoords <-
    wrap "invalid local grid square" (extractCoordinates localGridSquare) ;;
  remoteCoords <-
    wrap "invalid remote grid square" (extractCoordinates remoteGridSquare) ;;
  Ok (CalculateBearing (Latitude localCoords) (Longitude localCoords)
                       (Latitude remoteCoords) (Longitude remoteCoords)).

Definition GetLongPathBearing `{CaseTables} `{MathLib}
  (localGridSquare remoteGridSquare : string) : outcome float64 :=
  shortPathBearing <-
    wrap "error calculating short path bearing"
         (GetShortPathBearing localGridSquare remoteGridSquare) ;;
  let longPathBearing :=
    Mod (shortPathBearing + of_Z 180)%f64 (of_Z 360) in
  let longPathBearing :=
    if (longPathBearing <? of_Z 0)%f64 then (longPathBearing + of_Z 360)%f64
    else longPathBearing in
  Ok (Round (longPathBearing * of_Z 10) / of_Z 10)%f64.

(** The Haversine term [a] and the central angle [c] of two points given in
    degrees (the body of [GetShortPathDistance] between the extraction of
    the coordinates and the roundings). *)
Definition haversine_a `{MathLib} (local remote : gridSquareCoordinates)
  : float64 :=
  let localLongRad := toRadians (Longitude local) in
  let localLatRad := toRadians (Latitude local) in
  let remoteLongRad := toRadians (Longitude remote) in
  let remoteLatRad := toRadians (Latitude remote) in
  let dLat := (remoteLatRad - localLatRad)%f64 in
  let dLon := (remoteLongRad - localLongRad)%f64 in
  (Sin (dLat / of_Z 2) * Sin (dLat / of_Z 2)
   + Cos localLatRad * Cos remoteLatRad * Sin (dLon / of_Z 2)
     * Sin (dLon / of_Z 2))%f64.

Definition central_angle `{MathLib} (a : float64) : float64 :=
  (of_Z 2 * Atan2 (Sqrt a) (Sqrt (of_Z 1 - a)))%f64.

Definition GetShortPathDistance `{CaseTables} `{MathLib}
  (localGridSquare remoteGridSquare : string) : outcome (float64 * float64) :=
  localCoords <-
    wrap "invalid local grid square" (extractCoordinates localGridSquare) ;;
  remoteCoords <-
    wrap "invalid remote grid square" (extractCoordinates remoteGridSquare) ;;
  let a := haversine_a localCoords remoteCoords in
  let c := central_angle a in
  let distanceKm := Ceil (earthRad * c)%f64 in
  let distanceMiles := Ceil (distanceKm * kmToMiles)%f64 in
  Ok (distanceKm, distanceMiles).

(** [2 * math.Pi * earthRad]: an exact constant expression. *)
Definition earthCircumferenceKm : float64 := of_Q (2 * PiQ * 6371).

Definition GetLongPathDistance `{CaseTables} `{MathLib}
  (localGridSquare remoteGridSquare : string) : outcome (float64 * float64) :=
  r <- GetShortPathDistance localGridSquare remoteGridSquare ;;
  let shortPathKm := fst r in
  let longPathKm := Ceil (earthCircumferenceKm - shortPathKm)%f64 in
  let longPathMiles := Ceil (longPathKm * kmToMiles)%f64 in
  Ok (longPathKm, longPathMiles).

(* ================================================================= *)
(** ** The gathered result *)

(** The integer part of a finite [float64]. *)
Definition truncate (x : float64) : option Z :=
  match x with
  | S754_zero _ => Some 0
  | S754_finite s m e =>
    Some (cond_Zopp s (if 0 <=? e then Zpos m * 2 ^ e else Zpos m / 2 ^ (- e)))
  | _ => None
  end.

(** What [int64(x)] gives for NaN, an infinity or a number beyond the range
    of [int64] depends on the implementation: a parameter. *)
Class Conversions : Type := {
  int64_unrepresentable : float64 -> Z
}.

(** [int64(x)]: the fraction is discarded (truncation towards zero). *)
Definition int64 `{Conversions} (x : float64) : Z :=
  match truncate x with
  | Some n =>
    if in_range (- 2 ^ 63) (2 ^ 63 - 1) n then n else int64_unrepresentable x
  | None => int64_unrepresentable x
  end.

Record Location : Type := {
  LocalGridSquare : string;
  RemoteGridSquare : string;
  ShortPathBearing : float64;
  LongPathBearing : float64;
  ShortPathDistanceKm : Z;
  ShortPathDistanceMiles : Z;
  LongPathDistanceKm : Z;
  LongPathDistanceMiles : Z
}.

Definition GetLocation `{CaseTables} `{MathLib} `{Conversions}
  (localGridSquare remoteGridSquare : string) : outcome Location :=
  spBearing <-
    wrap "failed to calculate short path bearing"
         (GetShortPathBearing localGridSquare remoteGridSquare) ;;
  spDistance <-
    wrap "failed to calculate short path distance"
         (GetShortPathDistance localGridSquare remoteGridSquare) ;;
  let '(spDistanceKm, spDistanceMiles) := spDistance in
  lpBearing <-
    wrap "failed to calculate long path bearing"
         (GetLongPathBearing localGridSquare remoteGridSquare) ;;
  lpDistance <-
    wrap "failed to calculate long path distance"
         (GetLongPathDistance localGridSquare remoteGridSquare) ;;
  let '(lpDistanceKm, lpDistanceMiles) := lpDistance in
  Ok {| LocalGridSquare := localGridSquare;
        RemoteGridSquare := remoteGridSquare;
        ShortPathBearing := spBearing;
        LongPathBearing := lpBearing;
        ShortPathDistanceKm := int64 spDistanceKm;
        ShortPathDistanceMiles := int64 spDistanceMiles;
        LongPathDistanceKm := int64 lpDistanceKm;
        LongPathDistanceMiles := int64 lpDistanceMiles |}.

(* ================================================================= *)
(** ** An instance of the parameters: Go's portable [math] routines *)

(** The pure-Go bodies of [math.Sin], [math.Cos] ([sin.go]) and
    [math.Atan2] ([atan.go], [atan2.go]), the ones run where the
    distribution has no assembly for them (amd64 among others), for
    arguments below [reduceThreshold]; the Payne-Hanek reduction of larger
    arguments is left out (such an argument gives NaN here).  They serve to
    evaluate the package on concrete locators. *)
Module GoMath.

(** A literal in scientific notation: [sci d p e] is [d / 10^p * 10^e]. *)
Definition sci (d : Z) (places : nat) (e10 : Z) : Q :=
  (dec d places * Qpower 10 e10)%Q.

Definition PI4A : float64 := of_Q (sci 785398125648498535156 20 (-1)).
Definition PI4B : float64 := of_Q (sci 377489470793079817668 20 (-8)).
Definition PI4C : float64 := of_Q (sci 269515142907905952645 20 (-15)).

Definition _sin (i : nat) : float64 :=
  match i with
  | 0%nat => of_Q (sci 158962301576546568060 20 (-10))
  | 1%nat => of_Q (sci (-250507477628578072866) 20 (-8))
  | 2%nat => of_Q (sci 275573136213857245213 20 (-6))
  | 3%nat => of_Q (sci (-198412698295895385996) 20 (-4))
  | 4%nat => of_Q (sci 833333333332211858878 20 (-3))
  | _ => of_Q (sci (-166666666666666307295) 20 (-1))
  end.

Definition _cos (i : nat) : float64 :=
  match i with
  | 0%nat => of_Q (sci (-113585365213876817300) 20 (-11))
  | 1%nat => of_Q (sci 208757008419747316778 20 (-9))
  | 2%nat => of_Q (sci (-275573141792967388112) 20 (-7))
  | 3%nat => of_Q (sci 248015872888517045348 20 (-5))
  | 4%nat => of_Q (sci (-138888888888730564116) 20 (-3))
  | _ => of_Q (sci 416666666666665929218 20 (-2))
  end.

Definition reduceThreshold : float64 := of_Z (2 ^ 29).

Definition is_nan (x : float64) : bool :=
  match x with S754_nan => true | _ => false end.

Definition is_inf (x : float64) : bool :=
  match x with S754_infinity _ => true | _ => false end.

Definition Signbit (x : float64) : bool :=
  match x with
  | S754_zero s | S754_infinity s | S754_finite s _ _ => s
  | S754_nan => false
  end.

Definition Copysign (x y : float64) : float64 :=
  if Signbit y then fneg (SFabs x) else SFabs x.

(** [uint64(x)] of a non-negative finite number: truncation. *)
Definition to_uint64 (x : float64) : Z :=
  match x with
  | S754_finite false m e =>
    if 0 <=? e then Zpos m * 2 ^ e else Zpos m / 2 ^ (- e)
  | _ => 0
  end.

(** Cody-Waite reduction of a non-negative [x] below the threshold: the
    octant [j] and the remainder [z]. *)
Definition reduce (x : float64) : Z * float64 :=
  let j := to_uint64 (x * of_Q (4 / PiQ))%f64 in
  let y := of_Z j in
  let '(j, y) := if Z.odd j then (j + 1, (y + of_Z 1)%f64) else (j, y) in
  let j := Z.land j 7 in
  let z := (x - y * PI4A - y * PI4B - y * PI4C)%f64 in
  (j, z).

Definition sin_poly (z zz : float64) : float64 :=
  (z + z * zz * ((((((_sin 0 * zz) + _sin 1) * zz + _sin 2) * zz + _sin 3)
                  * zz + _sin 4) * zz + _sin 5))%f64.

Definition cos_poly (zz : float64) : float64 :=
  (of_Z 1 - of_Q (dec 5 1) * zz
   + zz * zz * ((((((_cos 0 * zz) + _cos 1) * zz + _cos 2) * zz + _cos 3)
                 * zz + _cos 4) * zz + _cos 5))%f64.

Definition sin (x : float64) : float64 :=
  match x with
  | S754_zero _ | S754_nan => x
  | S754_infinity _ => NaN
  | S754_finite sign _ _ =>
    let x := SFabs x in
    if fle reduceThreshold x then NaN
    else
      let '(j, z) := reduce x in
      let '(sign, j) := if 3 <? j then (negb sign, j - 4) else (sign, j) in
      let zz := (z * z)%f64 in
      let y := if (j =? 1) || (j =? 2) then cos_poly zz else sin_poly z zz in
      if sign then fneg y else y
  end.

Definition cos (x : float64) : float64 :=
  match x with
  | S754_nan | S754_infinity _ => NaN
  | _ =>
    let x := SFabs x in
    if fle reduceThreshold x then NaN
    else
      let '(j, z) := reduce x in
      let '(sign, j) := if 3 <? j then (true, j - 4) else (false, j) in
      let sign := if 1 <? j then negb sign else sign in
      let zz := (z * z)%f64 in
      let y := if (j =? 1) || (j =? 2) then sin_poly z zz else cos_poly zz in
      if sign then fneg y else y
  end.

(** [xatan]: the rational approximation on [0, 0.66]. *)
Definition xatan (x : float64) : float64 :=
  let P0 := of_Q (sci (-8750608600031904122785) 21 (-1)) in
  let P1 := of_Q (sci (-1615753718733365076637) 21 1) in
  let P2 := of_Q (sci (-7500855792314704667340) 21 1) in
  let P3 := of_Q (sci (-1228866684490136173410) 21 2) in
  let P4 := of_Q (sci (-6485021904942025371773) 21 1) in
  let Q0 := of_Q (sci 2485846490142306297962 21 1) in
  let Q1 := of_Q (sci 1650270098316988542046 21 2) in
  let Q2 := of_Q (sci 4328810604912902668951 21 2) in
  let Q3 := of_Q (sci 4853903996359136964868 21 2) in
  let Q4 := of_Q (sci 1945506571482613964425 21 2) in
  let z := (x * x)%f64 in
  let z := (z * ((((P0 * z + P1) * z + P2) * z + P3) * z + P4)
            / (((((z + Q0) * z + Q1) * z + Q2) * z + Q3) * z + Q4))%f64 in
  (x * z + x)%f64.

Definition MorebitsQ : Q := sci 6123233995736765886130 21 (-17).

(** [satan]: reduction of a positive argument to [0, 0.66]. *)
Definition satan (x : float64) : float64 :=
  let Tan3pio8 := of_Q (dec 241421356237309504880 20) in
  if fle x (of_Q (dec 66 2)) then xatan x
  else if flt Tan3pio8 x then
    (of_Q (PiQ / 2) - xatan (of_Z 1 / x) + of_Q MorebitsQ)%f64
  else
    (of_Q (PiQ / 4) + xatan ((x - of_Z 1) / (x + of_Z 1))
     + of_Q (dec 5 1 * MorebitsQ))%f64.

Definition atan (x : float64) : float64 :=
  if feq x (of_Z 0) then x
  else if flt (of_Z 0) x then satan x
  else fneg (satan (fneg x)).

Definition atan2 (y x : float64) : float64 :=
  let zero := S754_zero false in
  if is_nan x || is_nan y then NaN
  else if feq y zero then
    if fle zero x && negb (Signbit x) then Copysign zero y
    else Copysign Pi y
  else if feq x zero then Copysign (of_Q (PiQ / 2)) y
  else if is_inf x then
    if negb (Signbit x) then
      if is_inf y then Copysign (of_Q (PiQ / 4)) y else Copysign zero y
    else
      if is_inf y then Copysign (of_Q (3 * PiQ / 4)) y else Copysign Pi y
  else if is_inf y then Copysign (of_Q (PiQ / 2)) y
  else
    let q := atan (y / x)%f64 in
    if flt x zero then
      if fle q zero then (q + Pi)%f64 else (q - Pi)%f64
    else q.

End GoMath.

Definition goMath : MathLib :=
  {| Sin := GoMath.sin; Cos := GoMath.cos; Atan2 := GoMath.atan2 |}.

(** Case tables that leave every rune above ASCII as it is: enough to run
    the package on strings of ASCII and undecodable bytes. *)
Definition plainTables : CaseTables :=
  {| upperNonASCII := fun r => r; lowerNonASCII := fun r => r |}.

(** A conversion that gives the least [int64] where the value cannot be
    represented, as the amd64 instruction does. *)
Definition plainConversions : Conversions :=
  {| int64_unrepresentable := fun _ => - 2 ^ 63 |}.

(* ================================================================= *)
(** * The vocabulary of the statements *)

(** The rules, formulas and relations that the properties below are
    stated with: the specification's side of each comparison, the
    arithmetic of a function taken on its own, and the predicates by which
    finite ranges are checked. *)

(** ** The grammar, as the specification lists it *)

(** An uppercase letter within A-R; a lowercase letter within a-x. *)
Definition upperAR (b : Z) : bool := IsUpper b && in_range 65 82 b.
Definition lowerAX (b : Z) : bool := IsLower b && in_range 97 120 b.

(** The seven rules in their order, each with the phrase of its error. *)
Definition grammar_rules : list ((string -> bool) * string) :=
  [ (fun s => len s =? 6, "must be 6 characters");
    (fun s => upperAR (byte_at s 0), "first character must be A-R");
    (fun s => upperAR (byte_at s 1), "second character must be A-R");
    (fun s => IsDigit (byte_at s 2), "third character must be a digit");
    (fun s => IsDigit (byte_at s 3), "fourth character must be a digit");
    (fun s => lowerAX (byte_at s 4), "fifth character must be a-x");
    (fun s => lowerAX (byte_at s 5), "sixth character must be a-x") ].

(** The phrase of the first rule that [s] violates, if any. *)
Fixpoint first_violated (s : string) (rules : list ((string -> bool) * string))
  : option string :=
  match rules with
  | [] => None
  | (holds, phrase) :: rest =>
    if holds s then first_violated s rest else Some phrase
  end.

(** A string that the entry points accept: normalisation returns and its
    result passes validation. *)
Definition valid_locator `{CaseTables} (s : string) : Prop :=
  exists n, normalizeGridSquare s = Ok n /\ validateInput n = None.

(** The lower-case form of an ASCII letter; any other byte is left. *)
Definition fold_case (b : Z) : Z := if in_range 65 90 b then b + 32 else b.

(** Strings that differ only in the letter case of their characters. *)
Definition case_variant (s t : string) : Prop :=
  Forall2 (fun a b => fold_case a = fold_case b) (bytes s) (bytes t).

(** The rune of a byte that decodes on its own. *)
Definition single (b : Z) : rune := if b <? 0x80 then b else RuneError.

(** The six bytes 4A 4E C3 A9 38 74: the text "JN", e with an acute accent
    (two bytes in UTF-8), "8t". *)
Definition six_bytes_five_runes : string :=
  of_bytes [74; 78; 195; 169; 56; 116].

(** ** The coordinates, as the specification states them *)

(** The nearest integer, halves away from zero. *)
Definition round_half_away (q : Q) : Z :=
  let d := Zpos (Qden q) in
  if 0 <=? Qnum q then (2 * Qnum q + d) / (2 * d)
  else - ((2 * - Qnum q + d) / (2 * d)).

(** Rounding to a number of decimal places, exactly. *)
Definition round_places (places : nat) (q : Q) : Q :=
  Qmake (round_half_away (q * inject_Z (10 ^ Z.of_nat places)))
        (Pos.pow 10 (Pos.of_nat places)).

(** [field*10 + square*1 + sub*(2.5/60) + (2.5/60)/2 - 90] rounded to 5
    decimal places: the formula over the rationals, the decimal result
    taken to the nearest [float64]. *)
Definition latitude_spec (field square sub : Z) : float64 :=
  of_Q (round_places 5
          (inject_Z field * 10 + inject_Z square * 1
           + inject_Z sub * (dec 25 1 / 60) + (dec 25 1 / 60) / 2 - 90)%Q).

(** The same with widths 20, 2 and 5/60 degrees and origin -180. *)
Definition longitude_spec (field square sub : Z) : float64 :=
  of_Q (round_places 5
          (inject_Z field * 20 + inject_Z square * 2
           + inject_Z sub * (5 / 60) + (5 / 60) / 2 - 180)%Q).

(** The arithmetic of [LatitudeFromGridSquare] on the runes at the
    indices 1 and 5 and the number read at index 3. *)
Definition latitude_of_runes (r1 squareNum r5 : Z) : float64 :=
  let fieldLat := (of_Z r1 - asciiUpperA)%f64 in
  let fieldLatDegrees := (fieldLat * fieldHeight)%f64 in
  let squareLatDegrees := (of_Z squareNum * squareHeight)%f64 in
  let subsquareLat := (of_Z r5 - asciiLowerA)%f64 in
  let subsquareLatDegrees := (subsquareLat * subsquareHeight)%f64 in
  let centerOffset := of_Q (subsquareHeightQ / 2) in
  let latitude :=
    (fieldLatDegrees + squareLatDegrees + subsquareLatDegrees + centerOffset
     - of_Z 90)%f64 in
  (Round (latitude * rounding) / rounding)%f64.

(** The arithmetic of [LongitudeFromGridSquare] on the runes at the
    indices 0 and 4 and the number read at index 2. *)
Definition longitude_of_runes (r0 squareNum r4 : Z) : float64 :=
  let fieldLong := (of_Z r0 - asciiUpperA)%f64 in
  let fieldLongDegrees := (fieldLong * fieldWidth)%f64 in
  let squareLongDegrees := (of_Z squareNum * squareWidth)%f64 in
  let subsquareLong := (of_Z r4 - asciiLowerA)%f64 in
  let subsquareLongDegrees := (subsquareLong * subsquareWidth)%f64 in
  let centerOffset := of_Q (subsquareWidthQ / 2) in
  let longitude :=
    (fieldLongDegrees + squareLongDegrees + subsquareLongDegrees + centerOffset
     - of_Z 180)%f64 in
  (Round (longitude * rounding) / rounding)%f64.

(** ** Comparisons and finite ranges *)

(** Equality of [float64] values as data (NaN equals NaN, the two zeros
    differ). *)
Definition float64_eqb (x y : float64) : bool :=
  match x, y with
  | S754_zero a, S754_zero b | S754_infinity a, S754_infinity b => Bool.eqb a b
  | S754_nan, S754_nan => true
  | S754_finite a m e, S754_finite b m' e' =>
    Bool.eqb a b && Pos.eqb m m' && Z.eqb e e'
  | _, _ => false
  end.

(** [math.Float64bits]: the IEEE-754 encoding of a number in normal form
    (NaN as the bit pattern of [math.NaN]). *)
Definition Float64bits (x : float64) : Z :=
  let sign (s : bool) := if s then 2 ^ 63 else 0 in
  match x with
  | S754_zero s => sign s
  | S754_infinity s => sign s + 0x7FF0000000000000
  | S754_nan => 0x7FF8000000000001
  | S754_finite s m e =>
    sign s + (if Zpos m <? 2 ^ 52 then Zpos m
              else (e + 1075) * 2 ^ 52 + (Zpos m - 2 ^ 52))
  end.

(** [x] is within [tol] of the rational [q]. *)
Definition within (tol : Q) (x : float64) (q : Q) : bool :=
  match to_Q x with
  | Some v => Qle_bool (Qabs (v - q)) tol
  | None => false
  end.

(** [|x - y| <= tol], as the comparison of [float64] decides it. *)
Definition differs_by_at_most (tol x y : float64) : bool :=
  fle (SFabs (x - y)%f64) tol.

(** The integers [lo, lo+1, ..., lo+n-1]. *)
Fixpoint zrange (lo : Z) (n : nat) : list Z :=
  match n with
  | O => []
  | S n' => lo :: zrange (lo + 1) n'
  end.

(** On the cell [(field, square, sub)] the arithmetic of both coordinate
    functions gives what the specification states. *)
Definition coordinates_agree (field square sub : Z) : bool :=
  float64_eqb (latitude_of_runes (65 + field) square (97 + sub))
              (latitude_spec field square sub)
  && float64_eqb (longitude_of_runes (65 + field) square (97 + sub))
                 (longitude_spec field square sub).

(** ** Bearings and distances *)

(** The bearing [k/10], as [CalculateBearing] forms it from the rounded
    number of tenths. *)
Definition tenth (k : Z) : float64 := (of_Z k / of_Z 10)%f64.

(** The arithmetic of [GetLongPathBearing] on the short-path bearing. *)
Definition opposite_bearing (shortPathBearing : float64) : float64 :=
  let longPathBearing :=
    Mod (shortPathBearing + of_Z 180)%f64 (of_Z 360) in
  let longPathBearing :=
    if (longPathBearing <? of_Z 0)%f64 then (longPathBearing + of_Z 360)%f64
    else longPathBearing in
  (Round (longPathBearing * of_Z 10) / of_Z 10)%f64.


(** [0 <= x < 360]. *)
Definition in_bearing_range (x : float64) : bool :=
  fle (of_Z 0) x && flt x (of_Z 360).


(** On [s] whole short-path kilometres the long-path kilometres and [s]
    add up to the ceiling of the circumference. *)
Definition complement_agrees (s : Z) : bool :=
  float64_eqb (Ceil (earthCircumferenceKm - of_Z s) + of_Z s)%f64
              (Ceil earthCircumferenceKm).

(** ** The locator grammar as a pattern *)

(** A string in normal form: two letters within A-R, two digits and two
    letters within a-x. *)
Definition canonical (s : string) : bool :=
  match bytes s with
  | [b0; b1; b2; b3; b4; b5] =>
    in_range 65 82 b0 && in_range 65 82 b1
    && in_range 48 57 b2 && in_range 48 57 b3
    && in_range 97 120 b4 && in_range 97 120 b5
  | _ => false
  end.

(** The same pattern with the letters in either case. *)
Definition well_formed (s : string) : bool :=
  match bytes s with
  | [b0; b1; b2; b3; b4; b5] =>
    (in_range 65 82 b0 || in_range 97 114 b0)
    && (in_range 65 82 b1 || in_range 97 114 b1)
    && in_range 48 57 b2 && in_range 48 57 b3
    && (in_range 65 88 b4 || in_range 97 120 b4)
    && (in_range 65 88 b5 || in_range 97 120 b5)
  | _ => false
  end.

(** [0 <= pos < len(s)]. *)
Definition in_bounds (s : string) (pos : Z) : bool :=
  (0 <=? pos) && (pos <? len s).

(** ** Cells of the grid *)

(** The centre of the subsquare [(field, square, sub)], exactly. *)
Definition centre_latitude (field square sub : Z) : Q :=
  (inject_Z field * 10 + inject_Z square + inject_Z sub / 24 + 1 / 48 - 90)%Q.

Definition centre_longitude (field square sub : Z) : Q :=
  (inject_Z field * 20 + inject_Z square * 2 + inject_Z sub / 12 + 1 / 24
   - 180)%Q.

(** The row of subsquares that a latitude lies in, counted from the south
    pole, and the column that a longitude lies in, counted from the
    antimeridian. *)
Definition latitude_row (x : float64) : option Z :=
  option_map (fun q => Qfloor ((q + 90) * 24)) (to_Q x).

Definition longitude_column (x : float64) : option Z :=
  option_map (fun q => Qfloor ((q + 180) * 12)) (to_Q x).

Definition option_Z_eqb (a : option Z) (b : Z) : bool :=
  match a with
  | Some v => v =? b
  | None => false
  end.

(** The coordinates of the cell [(field, square, sub)] are within 0.000006
    of the centre of the subsquare and lie in its row and its column. *)
Definition cell_holds_coordinates (field square sub : Z) : bool :=
  let lat := latitude_spec field square sub in
  let lon := longitude_spec field square sub in
  let number := 240 * field + 24 * square + sub in
  within (dec 6 6) lat (centre_latitude field square sub)
  && within (dec 6 6) lon (centre_longitude field square sub)
  && option_Z_eqb (latitude_row lat) number
  && option_Z_eqb (longitude_column lon) number.

(** Every cell [(field, square, sub)] of the grid satisfies [p]. *)
Definition all_cells (p : Z -> Z -> Z -> bool) : bool :=
  forallb (fun field =>
    forallb (fun square =>
      forallb (fun sub => p field square sub) (zrange 0 24))
            (zrange 0 10))
          (zrange 0 18).

(** ** The gathered result *)

(** The miles of a whole number of kilometres: the least integer not below
    [km * 0.621371]. *)
Definition miles_of_km (km : Z) : Z := (km * 621371 + 999999) / 1000000.

(** On [s] whole short-path kilometres: the conversion to [int64] gives
    [s] back, the long-path kilometres are [40031 - s], and each miles
    value is the least integer not below its kilometres times 0.621371. *)
Definition whole_km_agrees (s : Z) : bool :=
  let shortPathKm := of_Z s in
  let longPathKm := Ceil (earthCircumferenceKm - shortPathKm)%f64 in
  option_Z_eqb (truncate shortPathKm) s
  && option_Z_eqb (truncate (Ceil (shortPathKm * kmToMiles)%f64))
                  (miles_of_km s)
  && option_Z_eqb (truncate longPathKm) (40031 - s)
  && option_Z_eqb (truncate (Ceil (longPathKm * kmToMiles)%f64))
                  (miles_of_km (40031 - s)).

(** The strings and numbers of a result, with other locators. *)
Definition with_locators (l r : string) (loc : Location) : Location :=
  {| LocalGridSquare := l;
     RemoteGridSquare := r;
     ShortPathBearing := ShortPathBearing loc;
     LongPathBearing := LongPathBearing loc;
     ShortPathDistanceKm := ShortPathDistanceKm loc;
     ShortPathDistanceMiles := ShortPathDistanceMiles loc;
     LongPathDistanceKm := LongPathDistanceKm loc;
     LongPathDistanceMiles := LongPathDistanceMiles loc |}.

(* ================================================================= *)
(** * Properties *)

(** Case analysis on the conditions of the goal. *)
Ltac split_ifs :=
  repeat match goal with
         | |- context [if ?b then _ else _] => destruct b eqn:?
         end.

(** Closed goals are decided by evaluation. *)
Ltac conj_vm :=
  cbv zeta; repeat match goal with |- _ /\ _ => split end;
  vm_compute; reflexivity.

(** ** Strings and bytes *)

#[local] Arguments byte_val : simpl never.
#[local] Arguments IsUpper : simpl never.
#[local] Arguments IsLower : simpl never.
#[local] Arguments IsDigit : simpl never.
#[local] Arguments in_range : simpl never.
#[local] Arguments formatError : simpl never.

Lemma byte_val_range (c : ascii) : 0 <= byte_val c < 256.
Proof.
  unfold byte_val. pose proof (N_ascii_bounded c). lia.
Qed.

Lemma byte_of_val (c : ascii) : byte_of (byte_val c) = c.
Proof.
  unfold byte_of, byte_val. rewrite N2Z.id. apply ascii_N_embedding.
Qed.

Lemma byte_val_of (z : Z) : 0 <= z < 256 -> byte_val (byte_of z) = z.
Proof.
  intros Hz. unfold byte_of, byte_val.
  rewrite N_ascii_embedding by lia. lia.
Qed.




Lemma len_6_inv (s : string) :
  len s = 6 ->
  exists c0 c1 c2 c3 c4 c5,
    s = String c0 (String c1 (String c2 (String c3 (String c4
          (String c5 EmptyString))))).
Proof.
  unfold len. intros Hlen.
  destruct s as [|c0 [|c1 [|c2 [|c3 [|c4 [|c5 [|c6 s]]]]]]];
    simpl in Hlen; try lia.
  now exists c0, c1, c2, c3, c4, c5.
Qed.

(** ** Validation *)

Lemma out_of_range_false (s : string) (pos : Z) :
  0 <= pos < len s -> (pos <? 0) || (len s <=? pos) = false.
Proof.
  intros Hpos. apply orb_false_iff.
  split; [apply Z.ltb_ge | apply Z.leb_gt]; lia.
Qed.

Lemma isUpperARAtPosition_in (s : string) (pos : Z) :
  0 <= pos < len s ->
  isUpperARAtPosition s pos = (upperAR (byte_at s pos), None).
Proof.
  intros Hpos. unfold isUpperARAtPosition, isUppercaseAtPosition, upperAR.
  rewrite out_of_range_false by assumption.
  now destruct (IsUpper (byte_at s pos)).
Qed.

Lemma isLowerAXAtPosition_in (s : string) (pos : Z) :
  0 <= pos < len s ->
  isLowerAXAtPosition s pos = (lowerAX (byte_at s pos), None).
Proof.
  intros Hpos. unfold isLowerAXAtPosition, isLowercaseAtPosition, lowerAX.
  rewrite out_of_range_false by assumption.
  now destruct (IsLower (byte_at s pos)).
Qed.

Lemma isDigitAtPosition_in (s : string) (pos : Z) :
  0 <= pos < len s ->
  isDigitAtPosition s pos = (IsDigit (byte_at s pos), None).
Proof.
  intros Hpos. unfold isDigitAtPosition.
  now rewrite out_of_range_false by assumption.
Qed.

(** On a string of six bytes the loop of [validateInput] is the cascade of
    the six positional checks. *)
Lemma runValidators_six (s : string) :
  len s = 6 ->
  runValidators s validators =
  if upperAR (byte_at s 0) then
    if upperAR (byte_at s 1) then
      if IsDigit (byte_at s 2) then
        if IsDigit (byte_at s 3) then
          if lowerAX (byte_at s 4) then
            if lowerAX (byte_at s 5) then None
            else Some (formatError s "sixth character must be a-x")
          else Some (formatError s "fifth character must be a-x")
        else Some (formatError s "fourth character must be a digit")
      else Some (formatError s "third character must be a digit")
    else Some (formatError s "second character must be A-R")
  else Some (formatError s "first character must be A-R").
Proof.
  intros Hlen.
  cbn [runValidators validators position validate errMsg].
  rewrite !isUpperARAtPosition_in, !isDigitAtPosition_in,
    !isLowerAXAtPosition_in by lia.
  destruct (upperAR (byte_at s 0)), (upperAR (byte_at s 1)),
    (IsDigit (byte_at s 2)), (IsDigit (byte_at s 3)),
    (lowerAX (byte_at s 4)), (lowerAX (byte_at s 5)); reflexivity.
Qed.


(** ** UTF-8 *)

Lemma decodeRune_width (b0 : Z) (t : list Z) :
  (1 <= snd (decodeRune (b0 :: t)) <= List.length (b0 :: t))%nat
  /\ (snd (decodeRune (b0 :: t)) = 1%nat ->
      fst (decodeRune (b0 :: t)) = single b0).
Proof.
  unfold decodeRune, single.
  destruct t as [|b1 [|b2 [|b3 t]]]; split_ifs; cbn [fst snd List.length];
    split; (lia || (intros; (reflexivity || discriminate))).
Qed.

Lemma decodeRunes_length (fuel : nat) :
  forall bs, (List.length (decodeRunes fuel bs) <= List.length bs)%nat.
Proof.
  induction fuel as [|fuel IH]; intros [|b0 t]; cbn [decodeRunes List.length];
    try lia.
  destruct (decodeRune (b0 :: t)) as [r w] eqn:E.
  pose proof (decodeRune_width b0 t) as [Hw _]. rewrite E in Hw.
  cbn [snd List.length] in Hw. cbn [List.length].
  specialize (IH (skipn w (b0 :: t))). rewrite length_skipn in IH.
  cbn [List.length] in IH. lia.
Qed.

(** When as many runes come out as bytes went in, every byte was decoded
    on its own. *)
Lemma decodeRunes_full (fuel : nat) :
  forall bs,
    (List.length bs <= fuel)%nat ->
    List.length (decodeRunes fuel bs) = List.length bs ->
    decodeRunes fuel bs = map single bs.
Proof.
  induction fuel as [|fuel IH]; intros [|b0 t] Hfuel Hlen;
    cbn [decodeRunes List.length map] in *; try reflexivity; try lia.
  destruct (decodeRune (b0 :: t)) as [r w] eqn:E.
  pose proof (decodeRune_width b0 t) as [Hw Hr]. rewrite E in Hw, Hr.
  cbn [fst snd List.length] in Hw, Hr. cbn [List.length] in Hlen.
  pose proof (decodeRunes_length fuel (skipn w (b0 :: t))) as Hle.
  rewrite length_skipn in Hle. cbn [List.length] in Hle.
  assert (w = 1%nat) by lia. subst w.
  rewrite Hr by reflexivity. cbn [skipn] in *.
  f_equal. apply IH; lia.
Qed.

Lemma decodeRunes_ascii (fuel : nat) :
  forall bs,
    (List.length bs <= fuel)%nat ->
    Forall (fun b => b < 0x80) bs ->
    decodeRunes fuel bs = bs.
Proof.
  induction fuel as [|fuel IH]; intros [|b0 t] Hfuel Hall;
    cbn [decodeRunes List.length] in *; try reflexivity; try lia.
  inversion Hall as [|? ? Hb0 Ht]; subst.
  unfold decodeRune. apply Z.ltb_lt in Hb0. rewrite Hb0.
  cbn [skipn]. f_equal. apply IH; [lia | assumption].
Qed.

Lemma encodeRune_length (r : rune) :
  (1 <= List.length (encodeRune r))%nat
  /\ (List.length (encodeRune r) = 1%nat ->
      0 <= r <= 127 /\ encodeRune r = [r]).
Proof.
  unfold encodeRune.
  destruct (in_range 0 127 r) eqn:E; [|split_ifs]; cbn [List.length];
    split; try lia; try (intros; discriminate).
  intros _. unfold in_range in E. apply andb_true_iff in E as [E1 E2].
  apply Z.leb_le in E1, E2. now split.
Qed.

Lemma encodeRune_ascii (r : rune) : 0 <= r <= 127 -> encodeRune r = [r].
Proof.
  intros Hr. unfold encodeRune, in_range.
  replace (0 <=? r) with true by (symmetry; apply Z.leb_le; lia).
  replace (r <=? 127) with true by (symmetry; apply Z.leb_le; lia).
  reflexivity.
Qed.

Lemma len_of_bytes (l : list Z) : len (of_bytes l) = Z.of_nat (List.length l).
Proof.
  unfold len, of_bytes. f_equal.
  rewrite <- (length_map byte_of l).
  induction (map byte_of l) as [|c cs IH]; cbn; [reflexivity | now rewrite IH].
Qed.

(** ** Normalisation *)

Lemma normalizeGridSquare_other_length `{CaseTables} (s : string) :
  len s <> 6 -> normalizeGridSquare s = Ok s.
Proof.
  intros Hlen. unfold normalizeGridSquare.
  apply Z.eqb_neq in Hlen. now rewrite Hlen.
Qed.

(** C8. [normalizeGridSquare] does not return on every string of six
    bytes: on a string whose six bytes hold five runes, the assignment to
    [runes[5]] is out of range and the call panics, whatever the case
    tables are. *)
Theorem normalizeGridSquare_panics_on_multibyte `{CaseTables} :
  len six_bytes_five_runes = 6
  /\ runes_of six_bytes_five_runes = [74; 78; 233; 56; 116]
  /\ normalizeGridSquare six_bytes_five_runes
     = Panic "runtime error: index out of range [5] with length 5"
  /\ index_out_of_range 5 5
     = "runtime error: index out of range [5] with length 5".
Proof. conj_vm. Qed.

Lemma bytes_length (s : string) : List.length (bytes s) = String.length s.
Proof.
  unfold bytes. rewrite length_map.
  induction s as [|c s IH]; cbn; [reflexivity | now rewrite IH].
Qed.

Lemma normalizeGridSquare_six `{CaseTables} (s n : string) :
  len s = 6 ->
  normalizeGridSquare s = Ok n ->
  exists r0 r1 r2 r3 r4 r5,
    runes_of s = [r0; r1; r2; r3; r4; r5]
    /\ n = string_of_runes
             [ToUpper r0; ToUpper r1; r2; r3; ToLower r4; ToLower r5].
Proof.
  intros Hlen Hn. unfold normalizeGridSquare in Hn.
  apply Z.eqb_eq in Hlen as Hlen'. rewrite Hlen' in Hn. cbn [negb] in Hn.
  assert (List.length (runes_of s) <= 6)%nat as Hle.
  { unfold runes_of.
    etransitivity; [apply decodeRunes_length|].
    rewrite bytes_length. unfold len in Hlen. lia. }
  destruct (runes_of s) as [|r0 [|r1 [|r2 [|r3 [|r4 [|r5 [|r6 rest]]]]]]];
    try discriminate Hn; cbn [List.length] in Hle; try lia.
  exists r0, r1, r2, r3, r4, r5. split; [reflexivity|].
  cbn in Hn. now injection Hn as <-.
Qed.

Lemma validateInput_None_inv (n : string) :
  validateInput n = None ->
  exists x0 x1 x2 x3 x4 x5,
    n = of_bytes [x0; x1; x2; x3; x4; x5]
    /\ byte_at n 0 = x0 /\ byte_at n 1 = x1 /\ byte_at n 2 = x2
    /\ byte_at n 3 = x3 /\ byte_at n 4 = x4 /\ byte_at n 5 = x5
    /\ 65 <= x0 <= 82 /\ 65 <= x1 <= 82 /\ 48 <= x2 <= 57
    /\ 48 <= x3 <= 57 /\ 97 <= x4 <= 120 /\ 97 <= x5 <= 120.
Proof.
  unfold validateInput. intros Hv.
  destruct (len n =? 6) eqn:Hlen; [|discriminate Hv].
  apply Z.eqb_eq in Hlen. cbn [negb] in Hv.
  rewrite runValidators_six in Hv by assumption.
  destruct (upperAR (byte_at n 0)) eqn:H0; [|discriminate Hv].
  destruct (upperAR (byte_at n 1)) eqn:H1; [|discriminate Hv].
  destruct (IsDigit (byte_at n 2)) eqn:H2; [|discriminate Hv].
  destruct (IsDigit (byte_at n 3)) eqn:H3; [|discriminate Hv].
  destruct (lowerAX (byte_at n 4)) eqn:H4; [|discriminate Hv].
  destruct (lowerAX (byte_at n 5)) eqn:H5; [|discriminate Hv].
  destruct (len_6_inv n Hlen) as (c0 & c1 & c2 & c3 & c4 & c5 & ->).
  exists (byte_val c0), (byte_val c1), (byte_val c2), (byte_val c3),
    (byte_val c4), (byte_val c5).
  split.
  { unfold of_bytes. cbn [map string_of_list_ascii].
    now rewrite !byte_of_val. }
  repeat (split; [reflexivity|]).
  change (byte_at _ 0) with (byte_val c0) in H0.
  change (byte_at _ 1) with (byte_val c1) in H1.
  change (byte_at _ 2) with (byte_val c2) in H2.
  change (byte_at _ 3) with (byte_val c3) in H3.
  change (byte_at _ 4) with (byte_val c4) in H4.
  change (byte_at _ 5) with (byte_val c5) in H5.
  unfold upperAR, lowerAX, IsDigit, in_range in *.
  repeat match goal with
         | H : _ && _ = true |- _ => apply andb_true_iff in H as [? ?]
         | H : (_ <=? _) = true |- _ => apply Z.leb_le in H
         end.
  lia.
Qed.

Lemma byte_at_of_bytes_6 (x0 x1 x2 x3 x4 x5 : Z) :
  0 <= x0 < 256 -> 0 <= x1 < 256 -> 0 <= x2 < 256 ->
  0 <= x3 < 256 -> 0 <= x4 < 256 -> 0 <= x5 < 256 ->
  bytes (of_bytes [x0; x1; x2; x3; x4; x5]) = [x0; x1; x2; x3; x4; x5].
Proof.
  intros. unfold bytes, of_bytes.
  cbn [map string_of_list_ascii list_ascii_of_string].
  now rewrite !byte_val_of by assumption.
Qed.

(** What the entry points accept: six ASCII bytes, two letters within A-R,
    two digits and two letters within a-x in either case; the normal form
    has the first pair in upper and the last pair in lower case. *)
Lemma valid_locator_inv `{CaseTables} (s n : string) :
  normalizeGridSquare s = Ok n ->
  validateInput n = None ->
  exists b0 b1 b2 b3 b4 b5,
    bytes s = [b0; b1; b2; b3; b4; b5]
    /\ Forall (fun b => 0 <= b < 0x80) [b0; b1; b2; b3; b4; b5]
    /\ n = of_bytes [ToUpper b0; ToUpper b1; b2; b3; ToLower b4; ToLower b5]
    /\ 65 <= ToUpper b0 <= 82 /\ 65 <= ToUpper b1 <= 82
    /\ 48 <= b2 <= 57 /\ 48 <= b3 <= 57
    /\ 97 <= ToLower b4 <= 120 /\ 97 <= ToLower b5 <= 120.
Proof.
  intros Hn Hv.
  assert (len s = 6) as Hlen.
  { destruct (Z.eq_dec (len s) 6) as [|Hne]; [assumption|].
    rewrite normalizeGridSquare_other_length in Hn by assumption.
    injection Hn as <-. unfold validateInput in Hv.
    apply Z.eqb_neq in Hne. rewrite Hne in Hv. discriminate Hv. }
  destruct (normalizeGridSquare_six s n Hlen Hn)
    as (r0 & r1 & r2 & r3 & r4 & r5 & Hrunes & ->).
  destruct (len_6_inv s Hlen) as (c0 & c1 & c2 & c3 & c4 & c5 & ->).
  (* every byte was decoded on its own *)
  unfold runes_of in Hrunes.
  rewrite decodeRunes_full in Hrunes
    by (rewrite ?Hrunes; reflexivity || (cbn; lia)).
  cbn [bytes list_ascii_of_string map] in Hrunes.
  injection Hrunes as <- <- <- <- <- <-.
  (* the normal form has six bytes, one for each rune *)
  assert (len (string_of_runes
                 [ToUpper (single (byte_val c0)); ToUpper (single (byte_val c1));
                  single (byte_val c2); single (byte_val c3);
                  ToLower (single (byte_val c4)); ToLower (single (byte_val c5))])
          = 6) as Hlen_n.
  { unfold validateInput in Hv.
    destruct (len _ =? 6) eqn:E; [now apply Z.eqb_eq in E | discriminate Hv]. }
  unfold string_of_runes in Hlen_n. rewrite len_of_bytes in Hlen_n.
  cbn [flat_map] in Hlen_n. rewrite !length_app in Hlen_n.
  cbn [List.length] in Hlen_n.
  pose proof (encodeRune_length (ToUpper (single (byte_val c0)))) as [L0 E0].
  pose proof (encodeRune_length (ToUpper (single (byte_val c1)))) as [L1 E1].
  pose proof (encodeRune_length (single (byte_val c2))) as [L2 E2].
  pose proof (encodeRune_length (single (byte_val c3))) as [L3 E3].
  pose proof (encodeRune_length (ToLower (single (byte_val c4)))) as [L4 E4].
  pose proof (encodeRune_length (ToLower (single (byte_val c5)))) as [L5 E5].
  destruct E0 as [R0 E0]; [lia|]. destruct E1 as [R1 E1]; [lia|].
  destruct E2 as [R2 E2]; [lia|]. destruct E3 as [R3 E3]; [lia|].
  destruct E4 as [R4 E4]; [lia|]. destruct E5 as [R5 E5]; [lia|].
  (* hence every byte is ASCII *)
  assert (forall b, 0 <= b < 256 ->
                    (0 <= ToUpper (single b) <= 127 \/ 0 <= single b <= 127
                     \/ 0 <= ToLower (single b) <= 127) ->
                    single b = b /\ 0 <= b < 0x80) as Hascii.
  { intros b Hb. unfold single, ToUpper, ToLower, RuneError.
    destruct (b <? 128) eqn:Eb.
    - apply Z.ltb_lt in Eb. intros _. split; [reflexivity | lia].
    - cbn. lia. }
  pose proof (byte_val_range c0) as B0. pose proof (byte_val_range c1) as B1.
  pose proof (byte_val_range c2) as B2. pose proof (byte_val_range c3) as B3.
  pose proof (byte_val_range c4) as B4. pose proof (byte_val_range c5) as B5.
  destruct (Hascii _ B0) as [S0 A0]; [auto|].
  destruct (Hascii _ B1) as [S1 A1]; [auto|].
  destruct (Hascii _ B2) as [S2 A2]; [auto|].
  destruct (Hascii _ B3) as [S3 A3]; [auto|].
  destruct (Hascii _ B4) as [S4 A4]; [auto|].
  destruct (Hascii _ B5) as [S5 A5]; [auto|].
  rewrite S0, S1, S2, S3, S4, S5 in *.
  exists (byte_val c0), (byte_val c1), (byte_val c2), (byte_val c3),
    (byte_val c4), (byte_val c5).
  split; [reflexivity|]. split; [repeat constructor; lia|].
  match type of Hv with
  | validateInput ?t = None =>
    assert (t = of_bytes
                  [ToUpper (byte_val c0); ToUpper (byte_val c1); byte_val c2;
                   byte_val c3; ToLower (byte_val c4); ToLower (byte_val c5)])
      as Hnorm
  end.
  { unfold string_of_runes. cbn [flat_map].
    now rewrite E0, E1, E2, E3, E4, E5. }
  rewrite Hnorm in Hv. split; [exact Hnorm|].
  destruct (validateInput_None_inv _ Hv)
    as (x0 & x1 & x2 & x3 & x4 & x5 & Hx & _ & _ & _ & _ & _ & _ & Hr).
  apply (f_equal bytes) in Hx.
  rewrite !byte_at_of_bytes_6 in Hx by lia.
  injection Hx as <- <- <- <- <- <-. lia.
Qed.

(** ** The coordinates *)

Lemma float64_eqb_eq (x y : float64) : float64_eqb x y = true -> x = y.
Proof.
  destruct x, y; cbn; try discriminate; try reflexivity.
  - intros E. apply Bool.eqb_prop in E. now subst.
  - intros E. apply Bool.eqb_prop in E. now subst.
  - intros E. apply andb_true_iff in E as [E He].
    apply andb_true_iff in E as [Hs Hm].
    apply Bool.eqb_prop in Hs. apply Pos.eqb_eq in Hm. apply Z.eqb_eq in He.
    now subst.
Qed.

Lemma in_zrange (n : nat) :
  forall lo z, lo <= z < lo + Z.of_nat n -> In z (zrange lo n).
Proof.
  induction n as [|n IH]; intros lo z Hz; [lia|].
  cbn [zrange]. destruct (Z.eq_dec lo z) as [->|Hne]; [now left|].
  right. apply IH. lia.
Qed.

Lemma forallb_zrange (p : Z -> bool) (lo : Z) (n : nat) :
  forallb p (zrange lo n) = true ->
  forall z, lo <= z < lo + Z.of_nat n -> p z = true.
Proof.
  intros Hall z Hz. rewrite forallb_forall in Hall.
  apply Hall, in_zrange, Hz.
Qed.

(** Every cell of the grid, evaluated: 18 fields, 10 squares and 24
    subsquares along each axis. *)
Lemma coordinates_table :
  forallb (fun field =>
    forallb (fun square =>
      forallb (fun sub => coordinates_agree field square sub)
              (zrange 0 24))
            (zrange 0 10))
          (zrange 0 18) = true.
Proof. vm_cast_no_check (eq_refl true). Qed.

Lemma coordinates_agree_all (field square sub : Z) :
  0 <= field <= 17 -> 0 <= square <= 9 -> 0 <= sub <= 23 ->
  latitude_of_runes (65 + field) square (97 + sub)
  = latitude_spec field square sub
  /\ longitude_of_runes (65 + field) square (97 + sub)
     = longitude_spec field square sub.
Proof.
  intros Hf Hs Hu.
  pose proof coordinates_table as T.
  apply forallb_zrange with (z := field) in T; [|cbn; lia].
  apply forallb_zrange with (z := square) in T; [|cbn; lia].
  apply forallb_zrange with (z := sub) in T; [|cbn; lia].
  unfold coordinates_agree in T. apply andb_true_iff in T as [T1 T2].
  split; now apply float64_eqb_eq.
Qed.

Lemma runes_of_ascii_6 (x0 x1 x2 x3 x4 x5 : Z) :
  Forall (fun b => 0 <= b < 0x80) [x0; x1; x2; x3; x4; x5] ->
  runes_of (of_bytes [x0; x1; x2; x3; x4; x5]) = [x0; x1; x2; x3; x4; x5].
Proof.
  intros Hall. unfold runes_of.
  assert (bytes (of_bytes [x0; x1; x2; x3; x4; x5]) = [x0; x1; x2; x3; x4; x5])
    as ->.
  { repeat match goal with
           | H : Forall _ (_ :: _) |- _ => inversion H; subst; clear H
           end.
    apply byte_at_of_bytes_6; lia. }
  apply decodeRunes_ascii; [cbn; lia|].
  eapply Forall_impl; [|exact Hall]. cbn. lia.
Qed.

Lemma Atoi_digit (x : Z) :
  48 <= x <= 57 -> Atoi (string_of_runes [x]) = Ok (x - 48).
Proof.
  intros Hx. unfold Atoi, string_of_runes. cbn [flat_map].
  rewrite encodeRune_ascii by lia. rewrite app_nil_r.
  unfold bytes, of_bytes. cbn [map string_of_list_ascii list_ascii_of_string].
  rewrite byte_val_of by lia.
  replace (x =? 45) with false by (symmetry; apply Z.eqb_neq; lia).
  replace (x =? 43) with false by (symmetry; apply Z.eqb_neq; lia).
  cbn [digits_val]. unfold in_range.
  replace (48 <=? x) with true by (symmetry; apply Z.leb_le; lia).
  replace (x <=? 57) with true by (symmetry; apply Z.leb_le; lia).
  cbn [andb].
  replace (- 2 ^ 63 <=? 0 * 10 + (x - 48)) with true
    by (symmetry; apply Z.leb_le; lia).
  replace (0 * 10 + (x - 48) <=? 2 ^ 63 - 1) with true
    by (symmetry; apply Z.leb_le; lia).
  cbn [andb]. f_equal; lia.
Qed.

(** On a locator in normal form the two coordinate functions reduce to
    their arithmetic. *)
Lemma coordinates_of_normal_form `{CaseTables} (s : string)
      (x0 x1 x2 x3 x4 x5 : Z) :
  normalizeGridSquare s = Ok (of_bytes [x0; x1; x2; x3; x4; x5]) ->
  validateInput (of_bytes [x0; x1; x2; x3; x4; x5]) = None ->
  Forall (fun b => 0 <= b < 0x80) [x0; x1; x2; x3; x4; x5] ->
  48 <= x2 <= 57 -> 48 <= x3 <= 57 ->
  LatitudeFromGridSquare s = Ok (latitude_of_runes x1 (x3 - 48) x5)
  /\ LongitudeFromGridSquare s = Ok (longitude_of_runes x0 (x2 - 48) x4).
Proof.
  intros Hn Hv Hall H2 H3.
  unfold LatitudeFromGridSquare, LongitudeFromGridSquare.
  rewrite Hn. cbn [bind]. rewrite Hv. cbn [check bind].
  rewrite runes_of_ascii_6 by assumption.
  cbn [index nth_error bind].
  rewrite !Atoi_digit by assumption. cbn [bind].
  unfold latitude_of_runes, longitude_of_runes. split; reflexivity.
Qed.

(** C1. For a locator that the package accepts, with normal form [n]:
    [LatitudeFromGridSquare] returns
    [field*10 + square*1 + sub*(2.5/60) + (2.5/60)/2 - 90] rounded to 5
    decimal places, where [field] is the letter at index 1 of [n] (counted
    from A, 0 to 17), [square] the digit at index 3 and [sub] the letter at
    index 5 (counted from a, 0 to 23); [LongitudeFromGridSquare] returns the
    same formula on the indices 0, 2 and 4 with the widths 20, 2 and 5/60
    and the origin -180.  The formula is taken over the rationals and its
    5-decimal result to the nearest [float64]. *)
Theorem coordinates_of_valid_locator `{CaseTables} (s n : string) :
  normalizeGridSquare s = Ok n ->
  validateInput n = None ->
  (0 <= byte_at n 1 - 65 <= 17 /\ 0 <= byte_at n 3 - 48 <= 9
   /\ 0 <= byte_at n 5 - 97 <= 23
   /\ LatitudeFromGridSquare s
      = Ok (latitude_spec (byte_at n 1 - 65) (byte_at n 3 - 48)
                          (byte_at n 5 - 97)))
  /\ (0 <= byte_at n 0 - 65 <= 17 /\ 0 <= byte_at n 2 - 48 <= 9
      /\ 0 <= byte_at n 4 - 97 <= 23
      /\ LongitudeFromGridSquare s
         = Ok (longitude_spec (byte_at n 0 - 65) (byte_at n 2 - 48)
                              (byte_at n 4 - 97))).
Proof.
  intros Hn Hv.
  destruct (validateInput_None_inv n Hv)
    as (x0 & x1 & x2 & x3 & x4 & x5 & Hx & A0 & A1 & A2 & A3 & A4 & A5 & Rx).
  rewrite A0, A1, A2, A3, A4, A5. subst n.
  destruct (coordinates_of_normal_form s x0 x1 x2 x3 x4 x5) as [Hlat Hlon];
    try assumption; try lia.
  { repeat constructor; cbn beta; lia. }
  rewrite Hlat, Hlon.
  destruct (coordinates_agree_all (x1 - 65) (x3 - 48) (x5 - 97)) as [E1 _];
    try lia.
  destruct (coordinates_agree_all (x0 - 65) (x2 - 48) (x4 - 97)) as [_ E2];
    try lia.
  replace (65 + (x1 - 65)) with x1 in E1 by lia.
  replace (97 + (x5 - 97)) with x5 in E1 by lia.
  replace (65 + (x0 - 65)) with x0 in E2 by lia.
  replace (97 + (x4 - 97)) with x4 in E2 by lia.
  rewrite E1, E2. repeat split; lia.
Qed.

(** ** Case variants *)

Lemma of_bytes_bytes (s : string) : of_bytes (bytes s) = s.
Proof.
  unfold of_bytes, bytes. rewrite map_map.
  rewrite (map_ext _ (fun c => c)) by apply byte_of_val.
  rewrite map_id. apply string_of_list_ascii_of_string.
Qed.

Lemma ToUpper_ascii `{CaseTables} (b : Z) :
  0 <= b < 0x80 -> ToUpper b = if in_range 97 122 b then b - 32 else b.
Proof.
  intros Hb. unfold ToUpper.
  now replace (b <=? 127) with true by (symmetry; apply Z.leb_le; lia).
Qed.

Lemma ToLower_ascii `{CaseTables} (b : Z) :
  0 <= b < 0x80 -> ToLower b = fold_case b.
Proof.
  intros Hb. unfold ToLower, fold_case.
  now replace (b <=? 127) with true by (symmetry; apply Z.leb_le; lia).
Qed.

Ltac range_cases :=
  unfold fold_case, in_range in *;
  repeat match goal with
         | H : context [?a <=? ?b] |- _ => destruct (Z.leb_spec a b)
         | |- context [?a <=? ?b] => destruct (Z.leb_spec a b)
         end;
  cbn [andb] in *; try lia.

Lemma ToUpper_ascii_range `{CaseTables} (b : Z) :
  0 <= b < 0x80 -> 0 <= ToUpper b <= 127.
Proof. intros Hb. rewrite ToUpper_ascii by assumption. range_cases. Qed.

Lemma ToLower_ascii_range `{CaseTables} (b : Z) :
  0 <= b < 0x80 -> 0 <= ToLower b <= 127.
Proof. intros Hb. rewrite ToLower_ascii by assumption. range_cases. Qed.

(** On six ASCII bytes [normalizeGridSquare] folds the case of the first
    and the last pair and leaves the middle pair. *)
Lemma normalizeGridSquare_ascii `{CaseTables} (x0 x1 x2 x3 x4 x5 : Z) :
  Forall (fun b => 0 <= b < 0x80) [x0; x1; x2; x3; x4; x5] ->
  normalizeGridSquare (of_bytes [x0; x1; x2; x3; x4; x5])
  = Ok (of_bytes [ToUpper x0; ToUpper x1; x2; x3; ToLower x4; ToLower x5]).
Proof.
  intros Hall. unfold normalizeGridSquare.
  rewrite len_of_bytes. cbn [List.length Z.of_nat negb].
  change (Z.pos (Pos.of_succ_nat 5) =? 6) with true. cbn [negb].
  rewrite runes_of_ascii_6 by assumption.
  cbn [update_rune nth_error firstn skipn app bind].
  unfold string_of_runes. cbn [flat_map].
  repeat match goal with
         | H : Forall _ (_ :: _) |- _ => inversion H; subst; clear H
         end.
  rewrite !encodeRune_ascii
    by (lia || now apply ToUpper_ascii_range || now apply ToLower_ascii_range).
  reflexivity.
Qed.

Lemma fold_case_ascii (a b : Z) :
  fold_case a = fold_case b -> 0 <= a < 0x80 -> 0 <= b < 0x80.
Proof. intros E Ha. range_cases. Qed.

Lemma fold_case_ToUpper `{CaseTables} (a b : Z) :
  fold_case a = fold_case b -> 0 <= a < 0x80 -> ToUpper b = ToUpper a.
Proof.
  intros E Ha. pose proof (fold_case_ascii a b E Ha) as Hb.
  rewrite !ToUpper_ascii by assumption. range_cases.
Qed.

Lemma fold_case_ToLower `{CaseTables} (a b : Z) :
  fold_case a = fold_case b -> 0 <= a < 0x80 -> ToLower b = ToLower a.
Proof.
  intros E Ha. pose proof (fold_case_ascii a b E Ha) as Hb.
  rewrite !ToLower_ascii by assumption. now symmetry.
Qed.

Lemma fold_case_digit (a b : Z) :
  fold_case a = fold_case b -> 48 <= a <= 57 -> b = a.
Proof. intros E Ha. range_cases. Qed.

(** A case variant of an accepted locator has the same normal form. *)
Lemma case_variant_normal_form `{CaseTables} (s t n : string) :
  normalizeGridSquare s = Ok n ->
  validateInput n = None ->
  case_variant s t ->
  normalizeGridSquare t = Ok n.
Proof.
  intros Hn Hv Hst.
  destruct (valid_locator_inv s n Hn Hv)
    as (b0 & b1 & b2 & b3 & b4 & b5 & Hs & Hascii & -> & R).
  unfold case_variant in Hst. rewrite Hs in Hst.
  repeat match goal with
         | H : Forall2 _ (_ :: _) _ |- _ => inversion H; subst; clear H
         | H : Forall2 _ [] _ |- _ => inversion H; subst; clear H
         | H : Forall _ (_ :: _) |- _ => inversion H; subst; clear H
         end.
  match goal with
  | E : _ = bytes t |- _ =>
    rewrite <- (of_bytes_bytes t); rewrite <- E
  end.
  rewrite normalizeGridSquare_ascii
    by (repeat constructor; eapply fold_case_ascii; eassumption).
  repeat match goal with
         | E : fold_case ?a = fold_case ?b |- context [ToUpper ?b] =>
           rewrite (fold_case_ToUpper a b E) by assumption
         | E : fold_case ?a = fold_case ?b |- context [ToLower ?b] =>
           rewrite (fold_case_ToLower a b E) by assumption
         end.
  repeat match goal with
         | E : fold_case ?a = fold_case ?b |- context [?b] =>
           rewrite (fold_case_digit a b E) by lia
         end.
  reflexivity.
Qed.

(** The coordinates of an accepted locator are defined. *)
Lemma coordinates_defined `{CaseTables} (s n : string) :
  normalizeGridSquare s = Ok n ->
  validateInput n = None ->
  exists lat lon,
    LatitudeFromGridSquare s = Ok lat /\ LongitudeFromGridSquare s = Ok lon.
Proof.
  intros Hn Hv.
  destruct (validateInput_None_inv n Hv)
    as (x0 & x1 & x2 & x3 & x4 & x5 & Hx & _ & _ & _ & _ & _ & _ & Rx).
  subst n.
  destruct (coordinates_of_normal_form s x0 x1 x2 x3 x4 x5) as [Hlat Hlon];
    try assumption; try lia.
  { repeat constructor; cbn beta; lia. }
  eauto.
Qed.

(** C7. Case-insensitivity: a string that differs from an accepted locator
    only in the letter case of its characters is accepted too, and the two
    have the same latitude and the same longitude. *)
Theorem coordinates_case_insensitive `{CaseTables} (L L' n : string) :
  normalizeGridSquare L = Ok n ->
  validateInput n = None ->
  case_variant L L' ->
  exists lat lon,
    LatitudeFromGridSquare L = Ok lat /\ LatitudeFromGridSquare L' = Ok lat
    /\ LongitudeFromGridSquare L = Ok lon
    /\ LongitudeFromGridSquare L' = Ok lon.
Proof.
  intros Hn Hv Hvar.
  pose proof (case_variant_normal_form L L' n Hn Hv Hvar) as Hn'.
  destruct (coordinates_defined L n Hn Hv) as (lat & lon & Hlat & Hlon).
  exists lat, lon. repeat split; try assumption.
  - rewrite <- Hlat. unfold LatitudeFromGridSquare. now rewrite Hn, Hn'.
  - rewrite <- Hlon. unfold LongitudeFromGridSquare. now rewrite Hn, Hn'.
Qed.

(** ** Two-locator entry points *)

Lemma valid_locator_coordinates `{CaseTables} (s : string) :
  valid_locator s -> exists c, extractCoordinates s = Ok c.
Proof.
  intros (n & Hn & Hv).
  destruct (coordinates_defined s n Hn Hv) as (lat & lon & Hlat & Hlon).
  exists {| Latitude := lat; Longitude := lon |}.
  unfold extractCoordinates. now rewrite Hlat, Hlon.
Qed.

(** A local locator that is rejected with an error is reported as the
    local one, whatever the remote locator is. *)
Lemma rejected_local_is_tagged `{CaseTables} `{MathLib}
      (localGridSquare remoteGridSquare m : string) :
  extractCoordinates localGridSquare = Err m ->
  GetShortPathBearing localGridSquare remoteGridSquare
  = Err ("invalid local grid square: " +++ m)
  /\ GetShortPathDistance localGridSquare remoteGridSquare
     = Err ("invalid local grid square: " +++ m).
Proof.
  intros Hl. unfold GetShortPathBearing, GetShortPathDistance.
  rewrite Hl. split; reflexivity.
Qed.

(** With the local locator accepted, a remote locator that is rejected
    with an error is reported as the remote one. *)
Lemma rejected_remote_is_tagged `{CaseTables} `{MathLib}
      (localGridSquare remoteGridSquare m : string)
      (c : gridSquareCoordinates) :
  extractCoordinates localGridSquare = Ok c ->
  extractCoordinates remoteGridSquare = Err m ->
  GetShortPathBearing localGridSquare remoteGridSquare
  = Err ("invalid remote grid square: " +++ m)
  /\ GetShortPathDistance localGridSquare remoteGridSquare
     = Err ("invalid remote grid square: " +++ m).
Proof.
  intros Hl Hr. unfold GetShortPathBearing, GetShortPathDistance.
  rewrite Hl, Hr. split; reflexivity.
Qed.

(** C9. The two-locator operations do not return an error for every
    invalid local locator: on the six bytes that hold five runes, as the
    local or as the remote locator, [GetShortPathBearing] and
    [GetShortPathDistance] panic inside [normalizeGridSquare], so no
    message tagged "invalid local grid square" or "invalid remote grid
    square" is returned. *)
Theorem two_locator_operations_panic_on_multibyte `{CaseTables} `{MathLib} :
  let panic {A} : outcome A := Panic (index_out_of_range 5 5) in
  validateInput six_bytes_five_runes
  = Some (formatError six_bytes_five_runes "third character must be a digit")
  /\ GetShortPathBearing six_bytes_five_runes "JN58td" = panic
  /\ GetShortPathDistance six_bytes_five_runes "JN58td" = panic
  /\ GetShortPathBearing "JN58td" six_bytes_five_runes = panic
  /\ GetShortPathDistance "JN58td" six_bytes_five_runes = panic.
Proof.
  cbv zeta. split; [vm_compute; reflexivity|].
  assert (extractCoordinates six_bytes_five_runes
          = Panic (index_out_of_range 5 5)) as Hbad
      by (vm_compute; reflexivity).
  assert (exists c, extractCoordinates "JN58td" = Ok c) as [c Hgood].
  { apply valid_locator_coordinates. exists "JN58td".
    split; vm_compute; reflexivity. }
  unfold GetShortPathBearing, GetShortPathDistance.
  rewrite Hbad, Hgood. repeat split.
Qed.

(** ** Long-path bearing *)





(** ** Distances *)

(** The two distance pairs of accepted locators, as [float64] data: the
    short-path kilometres are the ceiling of the Haversine distance, the
    long-path kilometres the ceiling of the circumference less the
    short-path kilometres, and each miles value is the ceiling of the
    already rounded kilometres times 0.621371.  The equality is the one of
    data, by which a NaN is itself; the comparison [==] of [float64] is
    [feq], which a NaN fails against everything. *)
Lemma miles_from_rounded_km `{CaseTables} `{MathLib} (l r : string) :
  valid_locator l -> valid_locator r ->
  exists lc rc shortKm longKm,
    extractCoordinates l = Ok lc /\ extractCoordinates r = Ok rc
    /\ shortKm = Ceil (earthRad * central_angle (haversine_a lc rc))%f64
    /\ longKm = Ceil (earthCircumferenceKm - shortKm)%f64
    /\ GetShortPathDistance l r = Ok (shortKm, Ceil (shortKm * kmToMiles)%f64)
    /\ GetLongPathDistance l r = Ok (longKm, Ceil (longKm * kmToMiles)%f64).
Proof.
  intros Hl Hr.
  destruct (valid_locator_coordinates l Hl) as [lc Hlc].
  destruct (valid_locator_coordinates r Hr) as [rc Hrc].
  exists lc, rc. do 2 eexists.
  split; [exact Hlc|]. split; [exact Hrc|].
  split; [reflexivity|]. split; [reflexivity|].
  unfold GetLongPathDistance, GetShortPathDistance.
  rewrite Hlc, Hrc. split; reflexivity.
Qed.

(** The two-stage rounding differs from converting the unrounded distance:
    1.1 km is reported as 2 km and 2 miles, where the conversion of 1.1 km
    itself rounds up to 1 mile. *)
Example two_stage_rounding_differs :
  let raw := of_Q (dec 11 1) in
  Ceil (Ceil raw * kmToMiles)%f64 = of_Z 2
  /\ Ceil (raw * kmToMiles)%f64 = of_Z 1.
Proof. conj_vm. Qed.

(** Every whole number of kilometres from 0 to 40031, evaluated. *)
Lemma complement_table :
  forallb complement_agrees (zrange 0 (Z.to_nat 40032)) = true.
Proof. vm_cast_no_check (eq_refl true). Qed.

Lemma Ceil_earthCircumferenceKm : Ceil earthCircumferenceKm = of_Z 40031.
Proof. vm_compute. reflexivity. Qed.

(** The long-path kilometres complement whole short-path kilometres
    exactly: the two ceilings leave no error between them. *)
Lemma long_km_complements_whole_km (s : Z) :
  0 <= s <= 40031 ->
  (Ceil (earthCircumferenceKm - of_Z s) + of_Z s)%f64 = of_Z 40031.
Proof.
  intros Hs. rewrite <- Ceil_earthCircumferenceKm.
  apply float64_eqb_eq.
  apply (forallb_zrange _ _ _ complement_table s). lia.
Qed.

(** With the short-path kilometres a whole number within the
    circumference, the two distances add up to 40031 km exactly. *)
Lemma distance_sum_exact_for_whole_km `{CaseTables} `{MathLib}
      (l r : string) (s : Z) (shortMi : float64) :
  GetShortPathDistance l r = Ok (of_Z s, shortMi) ->
  0 <= s <= 40031 ->
  exists longKm longMi,
    GetLongPathDistance l r = Ok (longKm, longMi)
    /\ (longKm + of_Z s)%f64 = of_Z 40031.
Proof.
  intros Hshort Hs. unfold GetLongPathDistance. rewrite Hshort.
  cbn [bind fst]. do 2 eexists. split; [reflexivity|].
  now apply long_km_complements_whole_km.
Qed.

(** * The package on Go's portable [math] routines *)

Section OnGoMath.

#[local] Existing Instance plainTables.
#[local] Existing Instance goMath.

(** The examples of the specification. *)
Example known_coordinates :
  LatitudeFromGridSquare "JN58td" = Ok (of_Q (dec 4814583 5))
  /\ LongitudeFromGridSquare "JN58td" = Ok (of_Q (dec 11625 3))
  /\ LatitudeFromGridSquare "AA00aa" = Ok (of_Q (dec (-8997917) 5))
  /\ LongitudeFromGridSquare "AA00aa" = Ok (of_Q (dec (-17995833) 5)).
Proof. conj_vm. Qed.

Example munich_to_new_haven :
  GetShortPathBearing "JN58td" "FN31pr" = Ok (tenth 2977)
  /\ GetLongPathBearing "JN58td" "FN31pr" = Ok (tenth 1177)
  /\ GetShortPathDistance "JN58td" "FN31pr" = Ok (of_Z 6336, of_Z 3938)
  /\ GetLongPathDistance "JN58td" "FN31pr" = Ok (of_Z 33695, of_Z 20938).
Proof. conj_vm. Qed.

(** C3. [CalculateBearing] does not stay below 360: a bearing in
    [359.95, 360) is rounded to 360.0 after the normalisation.  On Go's
    portable [math] routines the result from (0, 0) to (10, -0.001) is
    exactly 360, which is not less than 360; the same holds from the
    locator JN58td to JR59sx (one subsquare west of it, next to the
    pole). *)
Theorem CalculateBearing_reaches_360 :
  CalculateBearing (of_Z 0) (of_Z 0) (of_Z 10) (of_Q (dec (-1) 3)) = of_Z 360
  /\ in_bearing_range (of_Z 360) = false
  /\ GetShortPathBearing "JN58td" "JR59sx" = Ok (of_Z 360).
Proof. conj_vm. Qed.

(** The degenerate case: from a point to itself the bearing is 0. *)
Example bearing_of_coinciding_points :
  CalculateBearing (of_Z 0) (of_Z 0) (of_Z 0) (of_Z 0) = of_Z 0
  /\ GetShortPathBearing "JN58td" "JN58td" = Ok (of_Z 0).
Proof. conj_vm. Qed.

(** C5. On Go's portable [math] routines the two distances of the
    antipodal locators KO29hk and BD20hn do not add up to within 2 km of
    [ceil(2*pi*6371)]: the Haversine term exceeds 1, its complement has no
    square root, and both the short-path and the long-path kilometres are
    NaN. *)
Theorem distance_sum_not_within_2km_at_antipodes :
  exists shortKm shortMi longKm longMi,
    GetShortPathDistance "KO29hk" "BD20hn" = Ok (shortKm, shortMi)
    /\ GetLongPathDistance "KO29hk" "BD20hn" = Ok (longKm, longMi)
    /\ differs_by_at_most (of_Z 2) (shortKm + longKm)%f64
                          (Ceil earthCircumferenceKm) = false.
Proof.
  exists NaN, NaN, NaN, NaN. conj_vm.
Qed.

(** C10. On Go's portable [math] routines the short-path and long-path
    kilometres of the antipodal locators KO29hk and BD20hn do not add up
    to 40031: the Haversine term is [1 + 2^-52], so the short-path
    kilometres are NaN instead of a whole number, and so are the long-path
    kilometres and their sum. *)
Theorem distance_sum_not_exact_at_antipodes :
  exists lc rc shortKm shortMi longKm longMi,
    extractCoordinates "KO29hk" = Ok lc
    /\ extractCoordinates "BD20hn" = Ok rc
    /\ haversine_a lc rc = S754_finite false (2 ^ 52 + 1) (-52)
    /\ GetShortPathDistance "KO29hk" "BD20hn" = Ok (shortKm, shortMi)
    /\ GetLongPathDistance "KO29hk" "BD20hn" = Ok (longKm, longMi)
    /\ shortKm = NaN /\ longKm = NaN
    /\ feq (shortKm + longKm)%f64 (of_Z 40031) = false.
Proof.
  exists {| Latitude := of_Q (dec 594375 4);
            Longitude := of_Q (dec 24625 3) |},
         {| Latitude := of_Q (dec (-594375) 4);
            Longitude := of_Q (dec (-155375) 3) |},
         NaN, NaN, NaN, NaN.
  conj_vm.
Qed.

(** C6. On Go's portable [math] routines the miles of the antipodal
    locators KO29hk and BD20hn, both accepted, are not
    [ceil(km * 0.621371)] of an integral km: the Haversine term exceeds 1,
    so the short-path and the long-path kilometres are NaN, which has no
    integer part, and each miles value is NaN, which [==] holds equal to
    nothing, the ceiling of its kilometres times 0.621371 included. *)
Theorem miles_not_ceil_of_km_at_antipodes :
  valid_locator "KO29hk" /\ valid_locator "BD20hn"
  /\ exists shortKm shortMi longKm longMi,
       GetShortPathDistance "KO29hk" "BD20hn" = Ok (shortKm, shortMi)
       /\ GetLongPathDistance "KO29hk" "BD20hn" = Ok (longKm, longMi)
       /\ shortKm = NaN /\ longKm = NaN
       /\ truncate shortKm = None /\ truncate longKm = None
       /\ feq shortMi (Ceil (shortKm * kmToMiles)%f64) = false
       /\ feq longMi (Ceil (longKm * kmToMiles)%f64) = false.
Proof.
  split; [exists "KO29hk"; split; vm_compute; reflexivity|].
  split; [exists "BD20hn"; split; vm_compute; reflexivity|].
  exists NaN, NaN, NaN, NaN. conj_vm.
Qed.

End OnGoMath.

(** * Independence from the [math] routines *)

(** Whatever the [math] routines are, [CalculateBearing] returns 360 when
    [math.Atan2] returns an angle just below zero, such as -0.0001 rad:
    the angle is brought to 359.994... degrees and then rounded. *)
Lemma bearing_of_small_negative_angle `{MathLib}
      (lat1 lon1 lat2 lon2 : float64) :
  let dLon := (toRadians lon2 - toRadians lon1)%f64 in
  Atan2 (Sin dLon * Cos (toRadians lat2))%f64
        (Cos (toRadians lat1) * Sin (toRadians lat2)
         - Sin (toRadians lat1) * Cos (toRadians lat2) * Cos dLon)%f64
  = of_Q (dec (-1) 4) ->
  CalculateBearing lat1 lon1 lat2 lon2 = of_Z 360.
Proof.
  intros dLon Hangle. unfold CalculateBearing. fold dLon.
  rewrite Hangle. vm_compute. reflexivity.
Qed.

(** Whatever the [math] routines are, a Haversine term one unit in the
    last place above 1 gives NaN kilometres as soon as [math.Atan2]
    returns NaN on a NaN argument. *)
Lemma nan_kilometres_beyond_one `{MathLib} :
  let a := S754_finite false (2 ^ 52 + 1) (-52) in
  Atan2 (Sqrt a) NaN = NaN ->
  Sqrt (of_Z 1 - a)%f64 = NaN
  /\ Ceil (earthRad * central_angle a)%f64 = NaN.
Proof.
  intros a Hnan.
  assert (Sqrt (of_Z 1 - a)%f64 = NaN) as Hsqrt by (vm_compute; reflexivity).
  split; [exact Hsqrt|].
  unfold central_angle. rewrite Hsqrt, Hnan. vm_compute. reflexivity.
Qed.

(** * Instances of the theorems *)

(** The constants, by their bit patterns: [math.Pi], the conversion
    factor, the circumference, and the coefficients of [sin.go] as their
    source gives them in hexadecimal. *)
Example constants_bits :
  Float64bits Pi = 0x400921FB54442D18
  /\ Float64bits kmToMiles = 0x3FE3E2456F75D9A1
  /\ Float64bits earthCircumferenceKm = 0x40E38BC58E10E572
  /\ map Float64bits [GoMath.PI4A; GoMath.PI4B; GoMath.PI4C]
     = [0x3fe921fb40000000; 0x3e64442d00000000; 0x3ce8469898cc5170]
  /\ map (fun i => Float64bits (GoMath._sin i)) (seq 0 6)
     = [0x3de5d8fd1fd19ccd; 0xbe5ae5e5a9291f5d; 0x3ec71de3567d48a1;
        0xbf2a01a019bfdf03; 0x3f8111111110f7d0; 0xbfc5555555555548]
  /\ map (fun i => Float64bits (GoMath._cos i)) (seq 0 6)
     = [0xbda8fa49a0861a9b; 0x3e21ee9d7b4e3f05; 0xbe927e4f7eac4bc6;
        0x3efa01a019c844f5; 0xbf56c16c16c14f91; 0x3fa555555555554b].
Proof. conj_vm. Qed.

(** The grammar violations and lengths that the specification lists. *)
Example positional_validation :
  validateInput "ZN58td"
  = Some "invalid gridsquare format: ZN58td (first character must be A-R)"
  /\ validateInput "JZ58td"
     = Some "invalid gridsquare format: JZ58td (second character must be A-R)"
  /\ validateInput "JNa8td"
     = Some (formatError "JNa8td" "third character must be a digit")
  /\ validateInput "JN5xtd"
     = Some (formatError "JN5xtd" "fourth character must be a digit")
  /\ validateInput "JN58Yd"
     = Some "invalid gridsquare format: JN58Yd (fifth character must be a-x)"
  /\ validateInput "JN58tA"
     = Some "invalid gridsquare format: JN58tA (sixth character must be a-x)"
  /\ validateInput "an58td"
     = Some "invalid gridsquare format: an58td (first character must be A-R)"
  /\ validateInput "JN58T"
     = Some "invalid gridsquare format: JN58T (must be 6 characters)"
  /\ validateInput "JN58td" = None.
Proof. conj_vm. Qed.

(** Normalisation folds the case of any six ASCII bytes and leaves other
    lengths alone; an undecodable byte among six comes back as the three
    bytes of U+FFFD. *)
Example normalizeGridSquare_examples `{CaseTables} :
  normalizeGridSquare "jN58Td" = Ok "JN58td"
  /\ normalizeGridSquare "zz9!ZZ" = Ok "ZZ9!zz"
  /\ normalizeGridSquare "JN58TDX" = Ok "JN58TDX"
  /\ normalizeGridSquare "" = Ok ""
  /\ normalizeGridSquare (of_bytes [74; 78; 53; 56; 116; 255])
     = Ok (of_bytes [74; 78; 53; 56; 116; 239; 191; 189]).
Proof. conj_vm. Qed.

Lemma valid_JN58td : valid_locator (H := plainTables) "JN58td".
Proof. exists "JN58td". split; vm_compute; reflexivity. Defined.

Lemma valid_FN31pr : valid_locator (H := plainTables) "FN31pr".
Proof. exists "FN31pr". split; vm_compute; reflexivity. Defined.

Lemma coordinates_of_valid_locator_witness :
  (0 <= byte_at "JN58td" 1 - 65 <= 17 /\ 0 <= byte_at "JN58td" 3 - 48 <= 9
   /\ 0 <= byte_at "JN58td" 5 - 97 <= 23
   /\ LatitudeFromGridSquare (H := plainTables) "jn58TD"
      = Ok (latitude_spec (byte_at "JN58td" 1 - 65) (byte_at "JN58td" 3 - 48)
                          (byte_at "JN58td" 5 - 97)))
  /\ (0 <= byte_at "JN58td" 0 - 65 <= 17 /\ 0 <= byte_at "JN58td" 2 - 48 <= 9
      /\ 0 <= byte_at "JN58td" 4 - 97 <= 23
      /\ LongitudeFromGridSquare (H := plainTables) "jn58TD"
         = Ok (longitude_spec (byte_at "JN58td" 0 - 65)
                              (byte_at "JN58td" 2 - 48)
                              (byte_at "JN58td" 4 - 97))).
Proof.
  apply (@coordinates_of_valid_locator plainTables "jn58TD" "JN58td");
    vm_compute; reflexivity.
Defined.

Lemma coordinates_case_insensitive_witness :
  exists lat lon,
    LatitudeFromGridSquare (H := plainTables) "JN58TD" = Ok lat
    /\ LatitudeFromGridSquare (H := plainTables) "jn58td" = Ok lat
    /\ LongitudeFromGridSquare (H := plainTables) "JN58TD" = Ok lon
    /\ LongitudeFromGridSquare (H := plainTables) "jn58td" = Ok lon.
Proof.
  apply (@coordinates_case_insensitive plainTables "JN58TD" "jn58td" "JN58td").
  - vm_compute; reflexivity.
  - vm_compute; reflexivity.
  - vm_compute. repeat constructor.
Defined.


Lemma miles_from_rounded_km_witness :
  exists lc rc shortKm longKm,
    extractCoordinates (H := plainTables) "JN58td" = Ok lc
    /\ extractCoordinates (H := plainTables) "FN31pr" = Ok rc
    /\ shortKm
       = Ceil (earthRad * central_angle (H := goMath)
                            (haversine_a (H := goMath) lc rc))%f64
    /\ longKm = Ceil (earthCircumferenceKm - shortKm)%f64
    /\ GetShortPathDistance (H := plainTables) (H0 := goMath) "JN58td" "FN31pr"
       = Ok (shortKm, Ceil (shortKm * kmToMiles)%f64)
    /\ GetLongPathDistance (H := plainTables) (H0 := goMath) "JN58td" "FN31pr"
       = Ok (longKm, Ceil (longKm * kmToMiles)%f64).
Proof.
  exact (@miles_from_rounded_km plainTables goMath "JN58td" "FN31pr"
           valid_JN58td valid_FN31pr).
Defined.

(* ================================================================= *)
(** * Further properties *)

(** ** The positional checks *)

Lemma in_bounds_spec (s : string) (pos : Z) :
  (pos <? 0) || (len s <=? pos) = negb (in_bounds s pos).
Proof.
  unfold in_bounds.
  destruct (Z.ltb_spec pos 0), (Z.leb_spec (len s) pos),
    (Z.leb_spec 0 pos), (Z.ltb_spec pos (len s)); cbn; reflexivity || lia.
Qed.

Lemma upperAR_range (b : Z) : upperAR b = in_range 65 82 b.
Proof. unfold upperAR, IsUpper. range_cases. Qed.

Lemma lowerAX_range (b : Z) : lowerAX b = in_range 97 120 b.
Proof. unfold lowerAX, IsLower. range_cases. Qed.

(** X1. The positional checks decide by the byte alone.  For a position
    within the string, [isUpperARAtPosition], [isLowerAXAtPosition] and
    [isDigitAtPosition] return no error and the truth of A <= s[pos] <= R,
    a <= s[pos] <= x and 0 <= s[pos] <= 9: the test of the Unicode class
    that precedes the range test never changes the result.  For a position
    outside the string each of the five checks returns false with an
    error, the two range checks passing on the error of the class check. *)
Theorem positional_checks_by_range (s : string) (pos : Z) :
  if in_bounds s pos then
    isUpperARAtPosition s pos = (in_range 65 82 (byte_at s pos), None)
    /\ isLowerAXAtPosition s pos = (in_range 97 120 (byte_at s pos), None)
    /\ isDigitAtPosition s pos = (in_range 48 57 (byte_at s pos), None)
  else
    isUpperARAtPosition s pos = isUppercaseAtPosition s pos
    /\ isLowerAXAtPosition s pos = isLowercaseAtPosition s pos
    /\ (exists m, isUppercaseAtPosition s pos = (false, Some m))
    /\ (exists m, isLowercaseAtPosition s pos = (false, Some m))
    /\ (exists m, isDigitAtPosition s pos = (false, Some m)).
Proof.
  unfold isUpperARAtPosition, isLowerAXAtPosition, isUppercaseAtPosition,
    isLowercaseAtPosition, isDigitAtPosition.
  rewrite in_bounds_spec. destruct (in_bounds s pos); cbn [negb].
  - pose proof (upperAR_range (byte_at s pos)) as U.
    pose proof (lowerAX_range (byte_at s pos)) as L.
    unfold upperAR, lowerAX in U, L. unfold IsDigit.
    destruct (IsUpper (byte_at s pos)), (IsLower (byte_at s pos));
      cbn [andb] in U, L; rewrite <- ?U, <- ?L; auto.
  - repeat split; eexists; reflexivity.
Qed.

(** ** What [validateInput] accepts and what it reports *)

Lemma canonical_inv (s : string) :
  canonical s = true ->
  exists x0 x1 x2 x3 x4 x5,
    s = of_bytes [x0; x1; x2; x3; x4; x5]
    /\ 65 <= x0 <= 82 /\ 65 <= x1 <= 82 /\ 48 <= x2 <= 57
    /\ 48 <= x3 <= 57 /\ 97 <= x4 <= 120 /\ 97 <= x5 <= 120.
Proof.
  unfold canonical. intros Hc.
  rewrite <- (of_bytes_bytes s).
  destruct (bytes s) as [|x0 [|x1 [|x2 [|x3 [|x4 [|x5 [|x6 t]]]]]]];
    try discriminate Hc.
  exists x0, x1, x2, x3, x4, x5. split; [reflexivity|].
  unfold in_range in Hc.
  repeat match goal with
         | H : _ && _ = true |- _ => apply andb_true_iff in H as [? ?]
         | H : (_ <=? _) = true |- _ => apply Z.leb_le in H
         end.
  lia.
Qed.

Lemma in_range_true (lo hi b : Z) : lo <= b <= hi -> in_range lo hi b = true.
Proof.
  intros Hb. unfold in_range. apply andb_true_iff.
  split; apply Z.leb_le; lia.
Qed.

Lemma validateInput_of_bytes (x0 x1 x2 x3 x4 x5 : Z) :
  65 <= x0 <= 82 -> 65 <= x1 <= 82 -> 48 <= x2 <= 57 ->
  48 <= x3 <= 57 -> 97 <= x4 <= 120 -> 97 <= x5 <= 120 ->
  validateInput (of_bytes [x0; x1; x2; x3; x4; x5]) = None.
Proof.
  intros H0 H1 H2 H3 H4 H5. unfold validateInput.
  rewrite len_of_bytes. cbn [List.length Z.of_nat negb].
  change (Z.pos (Pos.of_succ_nat 5) =? 6) with true. cbn [negb].
  rewrite runValidators_six by (rewrite len_of_bytes; reflexivity).
  change (byte_at _ 0) with (byte_val (byte_of x0)).
  change (byte_at _ 1) with (byte_val (byte_of x1)).
  change (byte_at _ 2) with (byte_val (byte_of x2)).
  change (byte_at _ 3) with (byte_val (byte_of x3)).
  change (byte_at _ 4) with (byte_val (byte_of x4)).
  change (byte_at _ 5) with (byte_val (byte_of x5)).
  rewrite !byte_val_of by lia.
  rewrite !upperAR_range, !lowerAX_range. unfold IsDigit.
  now rewrite !in_range_true by assumption.
Qed.

(** X2. [validateInput] accepts exactly the strings of six bytes made of
    two letters within A-R, two digits and two letters within a-x. *)
Theorem validateInput_accepts_canonical (s : string) :
  validateInput s = None <-> canonical s = true.
Proof.
  split.
  - intros Hv.
    destruct (validateInput_None_inv s Hv)
      as (x0 & x1 & x2 & x3 & x4 & x5 & -> & _ & _ & _ & _ & _ & _ & R).
    unfold canonical. rewrite byte_at_of_bytes_6 by lia.
    now rewrite !in_range_true by lia.
  - intros Hc.
    destruct (canonical_inv s Hc)
      as (x0 & x1 & x2 & x3 & x4 & x5 & -> & R).
    apply validateInput_of_bytes; lia.
Qed.

(** X3. The message of [validateInput] is exactly
    "invalid gridsquare format: <input> (<phrase>)", with the phrase of the
    first rule that the input violates; the out-of-range errors of the
    positional checks never come out of it. *)
Theorem validateInput_message (s : string) :
  validateInput s
  = option_map
      (fun phrase =>
         "invalid gridsquare format: " +++ s +++ " (" +++ phrase +++ ")")
      (first_violated s grammar_rules).
Proof.
  unfold validateInput. cbn [first_violated grammar_rules].
  destruct (len s =? 6) eqn:Hlen; cbn [negb]; [|reflexivity].
  apply Z.eqb_eq in Hlen. rewrite runValidators_six by assumption.
  destruct (upperAR (byte_at s 0)), (upperAR (byte_at s 1)),
    (IsDigit (byte_at s 2)), (IsDigit (byte_at s 3)),
    (lowerAX (byte_at s 4)), (lowerAX (byte_at s 5)); reflexivity.
Qed.

(** ** Normalisation *)

Lemma runes_of_length (s : string) :
  (List.length (runes_of s) <= String.length s)%nat.
Proof.
  unfold runes_of. etransitivity; [apply decodeRunes_length|].
  now rewrite bytes_length.
Qed.

Lemma decodeRune_width_le_4 (bs : list Z) : (snd (decodeRune bs) <= 4)%nat.
Proof.
  unfold decodeRune.
  destruct bs as [|b0 [|b1 [|b2 [|b3 t]]]]; split_ifs; cbn [snd]; lia.
Qed.

(** A rune takes at most four bytes. *)
Lemma decodeRunes_length_ge (fuel : nat) :
  forall bs,
    (List.length bs <= fuel)%nat ->
    (List.length bs <= 4 * List.length (decodeRunes fuel bs))%nat.
Proof.
  induction fuel as [|fuel IH]; intros [|b0 t] Hfuel;
    cbn [decodeRunes List.length] in *; try lia.
  destruct (decodeRune (b0 :: t)) as [r w] eqn:E.
  pose proof (decodeRune_width b0 t) as [Hw _].
  pose proof (decodeRune_width_le_4 (b0 :: t)) as Hw4.
  rewrite E in Hw, Hw4. cbn [snd List.length] in Hw, Hw4.
  cbn [List.length].
  specialize (IH (skipn w (b0 :: t))). rewrite length_skipn in IH.
  cbn [List.length] in IH. lia.
Qed.

(** X4. [normalizeGridSquare] never returns an error.  It returns a
    string of another length than 6 as it is; on six bytes it returns when
    they hold six runes, and panics otherwise: the six bytes then hold 2 to
    5 runes, and the index out of range is 4 (fewer than five runes) or
    5. *)
Theorem normalizeGridSquare_outcomes `{CaseTables} (s : string) :
  let n := List.length (runes_of s) in
  match normalizeGridSquare s with
  | Ok t => (len s <> 6 /\ t = s) \/ (len s = 6 /\ n = 6%nat)
  | Err _ => False
  | Panic reason =>
    len s = 6 /\ (2 <= n < 6)%nat
    /\ reason = index_out_of_range (if (n <? 5)%nat then 4 else 5) n
  end.
Proof.
  cbv zeta. unfold normalizeGridSquare.
  destruct (len s =? 6) eqn:Hlen; cbn [negb].
  2:{ left. apply Z.eqb_neq in Hlen. now split. }
  apply Z.eqb_eq in Hlen.
  pose proof (runes_of_length s) as Hle.
  pose proof (decodeRunes_length_ge (String.length s) (bytes s)) as Hge.
  rewrite bytes_length in Hge. specialize (Hge (Nat.le_refl _)).
  fold (runes_of s) in Hge. unfold len in Hlen.
  destruct (runes_of s) as [|r0 [|r1 [|r2 [|r3 [|r4 [|r5 [|r6 rest]]]]]]];
    cbn [List.length] in Hle, Hge; try lia;
    cbn [update_rune nth_error firstn skipn app bind List.length Nat.ltb
         Nat.leb];
    (right; split; [unfold len; lia | reflexivity])
    || (repeat split; (unfold len; lia) || lia || reflexivity).
Qed.

Lemma ToUpper_idempotent `{CaseTables} (b : Z) :
  0 <= b < 0x80 -> ToUpper (ToUpper b) = ToUpper b.
Proof.
  intros Hb. pose proof (ToUpper_ascii_range b Hb) as R.
  rewrite (ToUpper_ascii (ToUpper b)) by lia.
  rewrite (ToUpper_ascii b) by lia. unfold in_range.
  destruct (Z.leb_spec 97 b), (Z.leb_spec b 122); cbn [andb]; range_cases.
Qed.

Lemma ToLower_idempotent `{CaseTables} (b : Z) :
  0 <= b < 0x80 -> ToLower (ToLower b) = ToLower b.
Proof.
  intros Hb. pose proof (ToLower_ascii_range b Hb) as R.
  rewrite (ToLower_ascii (ToLower b)) by lia.
  rewrite (ToLower_ascii b) by lia. unfold fold_case, in_range.
  destruct (Z.leb_spec 65 b), (Z.leb_spec b 90); cbn [andb]; range_cases.
Qed.

Lemma ToUpper_single `{CaseTables} (b : Z) :
  0 <= b < 256 ->
  if b <? 128 then encodeRune (ToUpper (single b)) = [ToUpper b]
                   /\ 0 <= ToUpper b < 128
                   /\ ToUpper (ToUpper b) = ToUpper b
  else List.length (encodeRune (ToUpper (single b))) = 3%nat.
Proof.
  intros Hb. unfold single. destruct (Z.ltb_spec b 128).
  - pose proof (ToUpper_ascii_range b ltac:(lia)) as R.
    rewrite encodeRune_ascii by lia. split; [reflexivity|]. split; [lia|].
    apply ToUpper_idempotent. lia.
  - reflexivity.
Qed.

Lemma ToLower_single `{CaseTables} (b : Z) :
  0 <= b < 256 ->
  if b <? 128 then encodeRune (ToLower (single b)) = [ToLower b]
                   /\ 0 <= ToLower b < 128
                   /\ ToLower (ToLower b) = ToLower b
  else List.length (encodeRune (ToLower (single b))) = 3%nat.
Proof.
  intros Hb. unfold single. destruct (Z.ltb_spec b 128).
  - pose proof (ToLower_ascii_range b ltac:(lia)) as R.
    rewrite encodeRune_ascii by lia. split; [reflexivity|]. split; [lia|].
    apply ToLower_idempotent. lia.
  - reflexivity.
Qed.

Lemma encode_single (b : Z) :
  0 <= b < 256 ->
  if b <? 128 then encodeRune (single b) = [b]
  else List.length (encodeRune (single b)) = 3%nat.
Proof.
  intros Hb. unfold single. destruct (Z.ltb_spec b 128).
  - now rewrite encodeRune_ascii by lia.
  - reflexivity.
Qed.

(** X5. [normalizeGridSquare] is idempotent: what it returns it returns
    unchanged when applied again, also when an undecodable byte has been
    replaced by the three bytes of U+FFFD. *)
Theorem normalizeGridSquare_idempotent `{CaseTables} (s n : string) :
  normalizeGridSquare s = Ok n -> normalizeGridSquare n = Ok n.
Proof.
  intros Hn.
  destruct (Z.eq_dec (len s) 6) as [Hlen|Hlen].
  2:{ rewrite normalizeGridSquare_other_length in Hn by assumption.
      injection Hn as <-. now apply normalizeGridSquare_other_length. }
  destruct (normalizeGridSquare_six s n Hlen Hn)
    as (r0 & r1 & r2 & r3 & r4 & r5 & Hrunes & ->).
  destruct (len_6_inv s Hlen) as (c0 & c1 & c2 & c3 & c4 & c5 & ->).
  unfold runes_of in Hrunes.
  rewrite decodeRunes_full in Hrunes
    by (rewrite ?Hrunes; reflexivity || (cbn; lia)).
  cbn [bytes list_ascii_of_string map] in Hrunes.
  injection Hrunes as <- <- <- <- <- <-.
  pose proof (ToUpper_single _ (byte_val_range c0)) as U0.
  pose proof (ToUpper_single _ (byte_val_range c1)) as U1.
  pose proof (encode_single _ (byte_val_range c2)) as U2.
  pose proof (encode_single _ (byte_val_range c3)) as U3.
  pose proof (ToLower_single _ (byte_val_range c4)) as U4.
  pose proof (ToLower_single _ (byte_val_range c5)) as U5.
  pose proof (encodeRune_length (ToUpper (single (byte_val c0)))) as [L0 _].
  pose proof (encodeRune_length (ToUpper (single (byte_val c1)))) as [L1 _].
  pose proof (encodeRune_length (single (byte_val c2))) as [L2 _].
  pose proof (encodeRune_length (single (byte_val c3))) as [L3 _].
  pose proof (encodeRune_length (ToLower (single (byte_val c4)))) as [L4 _].
  pose proof (encodeRune_length (ToLower (single (byte_val c5)))) as [L5 _].
  unfold string_of_runes. cbn [flat_map]. rewrite app_nil_r.
  destruct (byte_val c0 <? 128) eqn:E0, (byte_val c1 <? 128) eqn:E1,
    (byte_val c2 <? 128) eqn:E2, (byte_val c3 <? 128) eqn:E3,
    (byte_val c4 <? 128) eqn:E4, (byte_val c5 <? 128) eqn:E5;
    try (apply normalizeGridSquare_other_length; rewrite len_of_bytes;
         rewrite !length_app; lia).
  destruct U0 as (-> & R0 & I0), U1 as (-> & R1 & I1),
    U4 as (-> & R4 & I4), U5 as (-> & R5 & I5).
  rewrite U2, U3. cbn [app].
  apply Z.ltb_lt in E2, E3.
  pose proof (byte_val_range c2). pose proof (byte_val_range c3).
  rewrite normalizeGridSquare_ascii by (repeat constructor; cbn beta; lia).
  now rewrite I0, I1, I4, I5.
Qed.

(** X6. A string that [validateInput] accepts is in normal form:
    [normalizeGridSquare] returns it as it is. *)
Theorem canonical_is_fixed_point `{CaseTables} (s : string) :
  validateInput s = None -> normalizeGridSquare s = Ok s.
Proof.
  intros Hv.
  destruct (validateInput_None_inv s Hv)
    as (x0 & x1 & x2 & x3 & x4 & x5 & -> & _ & _ & _ & _ & _ & _ & R).
  rewrite normalizeGridSquare_ascii by (repeat constructor; cbn beta; lia).
  rewrite !ToUpper_ascii, !ToLower_ascii by lia.
  unfold fold_case.
  replace (in_range 97 122 x0) with false by (symmetry; range_cases).
  replace (in_range 97 122 x1) with false by (symmetry; range_cases).
  replace (in_range 65 90 x4) with false by (symmetry; range_cases).
  replace (in_range 65 90 x5) with false by (symmetry; range_cases).
  reflexivity.
Qed.

(** ** What the entry points accept *)

Lemma upper_letter `{CaseTables} (b : Z) :
  0 <= b < 0x80 ->
  65 <= ToUpper b <= 82 <-> in_range 65 82 b || in_range 97 114 b = true.
Proof.
  intros Hb. rewrite ToUpper_ascii by assumption. unfold in_range.
  destruct (Z.leb_spec 97 b), (Z.leb_spec b 122), (Z.leb_spec 65 b),
    (Z.leb_spec b 82), (Z.leb_spec b 114); cbn; split; intros; lia
    || reflexivity || discriminate.
Qed.

Lemma lower_letter `{CaseTables} (b : Z) :
  0 <= b < 0x80 ->
  97 <= ToLower b <= 120 <-> in_range 65 88 b || in_range 97 120 b = true.
Proof.
  intros Hb. rewrite ToLower_ascii by assumption. unfold fold_case, in_range.
  destruct (Z.leb_spec 65 b), (Z.leb_spec b 90), (Z.leb_spec 97 b),
    (Z.leb_spec b 88), (Z.leb_spec b 120); cbn; split; intros; lia
    || reflexivity || discriminate.
Qed.

Lemma in_range_inv (lo hi b : Z) : in_range lo hi b = true -> lo <= b <= hi.
Proof.
  unfold in_range. intros E. apply andb_true_iff in E as [E1 E2].
  apply Z.leb_le in E1, E2. lia.
Qed.

Lemma well_formed_valid `{CaseTables} (s : string) :
  well_formed s = true -> valid_locator s.
Proof.
  unfold well_formed. intros Hw. rewrite <- (of_bytes_bytes s).
  destruct (bytes s) as [|b0 [|b1 [|b2 [|b3 [|b4 [|b5 [|b6 t]]]]]]];
    try discriminate Hw.
  repeat match goal with
         | H : _ && _ = true |- _ => apply andb_true_iff in H as [? ?]
         end.
  assert (Forall (fun b => 0 <= b < 0x80) [b0; b1; b2; b3; b4; b5]) as Hall.
  { repeat constructor; cbn beta;
      repeat match goal with
             | H : _ || _ = true |- _ => apply orb_true_iff in H as [H|H]
             | H : in_range _ _ _ = true |- _ => apply in_range_inv in H
             end; lia. }
  eexists. split; [now apply normalizeGridSquare_ascii|].
  repeat match goal with
         | H : Forall _ (_ :: _) |- _ => inversion H; subst; clear H
         end.
  apply validateInput_of_bytes;
    (now apply upper_letter) || (now apply lower_letter)
    || now apply in_range_inv.
Qed.

Lemma valid_well_formed `{CaseTables} (s : string) :
  valid_locator s -> well_formed s = true.
Proof.
  intros (n & Hn & Hv).
  destruct (valid_locator_inv s n Hn Hv)
    as (b0 & b1 & b2 & b3 & b4 & b5 & Hs & Hascii & _ & R0 & R1 & R2 & R3
        & R4 & R5).
  unfold well_formed. rewrite Hs.
  repeat match goal with
         | H : Forall _ (_ :: _) |- _ => inversion H; subst; clear H
         end.
  apply upper_letter in R0, R1; try assumption.
  apply lower_letter in R4, R5; try assumption.
  rewrite R0, R1, R4, R5. now rewrite !in_range_true by assumption.
Qed.

(** X7. The entry points accept exactly the strings of six bytes made of
    two letters within A-R, two digits and two letters within A-X, each
    letter in either case. *)
Theorem valid_locator_pattern `{CaseTables} (s : string) :
  valid_locator s <-> well_formed s = true.
Proof.
  split; [apply valid_well_formed | apply well_formed_valid].
Qed.

(** ** The coordinate functions fail alike *)

Lemma coordinates_rejected `{CaseTables} (s n m : string) :
  normalizeGridSquare s = Ok n ->
  validateInput n = Some m ->
  LatitudeFromGridSquare s = Err m /\ LongitudeFromGridSquare s = Err m
  /\ extractCoordinates s = Err m.
Proof.
  intros Hn Hv.
  unfold extractCoordinates, LatitudeFromGridSquare, LongitudeFromGridSquare.
  rewrite Hn. cbn [bind]. rewrite Hv. repeat split.
Qed.

Lemma coordinates_panic `{CaseTables} (s p : string) :
  normalizeGridSquare s = Panic p ->
  LatitudeFromGridSquare s = Panic p /\ LongitudeFromGridSquare s = Panic p
  /\ extractCoordinates s = Panic p.
Proof.
  intros Hn.
  unfold extractCoordinates, LatitudeFromGridSquare, LongitudeFromGridSquare.
  rewrite Hn. repeat split.
Qed.

Lemma normalizeGridSquare_no_error `{CaseTables} (s m : string) :
  normalizeGridSquare s <> Err m.
Proof.
  unfold normalizeGridSquare, update_rune.
  destruct (negb (len s =? 6)); [discriminate|].
  repeat (match goal with
          | |- context [nth_error ?l ?i] => destruct (nth_error l i)
          end; cbn [bind]); discriminate.
Qed.

(** X8. [LatitudeFromGridSquare], [LongitudeFromGridSquare] and
    [extractCoordinates] fail alike: they panic when the normalisation
    panics, return the error of [validateInput] on the normalised string
    when it rejects it, with the same message and nothing added, and
    return coordinates otherwise; no error of [strconv.Atoi] and no index
    out of range comes out of them. *)
Theorem coordinate_functions_fail_alike `{CaseTables} (s : string) :
  match normalizeGridSquare s with
  | Panic p =>
    LatitudeFromGridSquare s = Panic p /\ LongitudeFromGridSquare s = Panic p
    /\ extractCoordinates s = Panic p
  | Err _ => False
  | Ok n =>
    match validateInput n with
    | Some m =>
      LatitudeFromGridSquare s = Err m /\ LongitudeFromGridSquare s = Err m
      /\ extractCoordinates s = Err m
    | None =>
      exists lat lon,
        LatitudeFromGridSquare s = Ok lat /\ LongitudeFromGridSquare s = Ok lon
        /\ extractCoordinates s = Ok {| Latitude := lat; Longitude := lon |}
    end
  end.
Proof.
  destruct (normalizeGridSquare s) as [n|m|p] eqn:Hn.
  - destruct (validateInput n) as [m|] eqn:Hv.
    + now apply coordinates_rejected with (n := n).
    + destruct (coordinates_defined s n Hn Hv) as (lat & lon & Hlat & Hlon).
      exists lat, lon. unfold extractCoordinates. now rewrite Hlat, Hlon.
  - now apply normalizeGridSquare_no_error in Hn.
  - now apply coordinates_panic.
Qed.

(** ** The coordinates and the cells of the grid *)

Lemma all_cells_spec (p : Z -> Z -> Z -> bool) :
  all_cells p = true ->
  forall field square sub,
    0 <= field <= 17 -> 0 <= square <= 9 -> 0 <= sub <= 23 ->
    p field square sub = true.
Proof.
  unfold all_cells. intros T field square sub Hf Hs Hu.
  apply forallb_zrange with (z := field) in T; [|cbn; lia].
  apply forallb_zrange with (z := square) in T; [|cbn; lia].
  apply forallb_zrange with (z := sub) in T; [|cbn; lia].
  exact T.
Qed.

Lemma cells_table : all_cells cell_holds_coordinates = true.
Proof. vm_cast_no_check (eq_refl true). Qed.

(** The coordinates of an accepted locator, by the cell that its normal
    form names. *)
Lemma coordinates_of_cell `{CaseTables} (s n : string) :
  normalizeGridSquare s = Ok n ->
  validateInput n = None ->
  exists x0 x1 x2 x3 x4 x5,
    n = of_bytes [x0; x1; x2; x3; x4; x5]
    /\ byte_at n 0 = x0 /\ byte_at n 1 = x1 /\ byte_at n 2 = x2
    /\ byte_at n 3 = x3 /\ byte_at n 4 = x4 /\ byte_at n 5 = x5
    /\ 65 <= x0 <= 82 /\ 65 <= x1 <= 82 /\ 48 <= x2 <= 57
    /\ 48 <= x3 <= 57 /\ 97 <= x4 <= 120 /\ 97 <= x5 <= 120
    /\ LatitudeFromGridSquare s
       = Ok (latitude_spec (x1 - 65) (x3 - 48) (x5 - 97))
    /\ LongitudeFromGridSquare s
       = Ok (longitude_spec (x0 - 65) (x2 - 48) (x4 - 97)).
Proof.
  intros Hn Hv.
  destruct (validateInput_None_inv n Hv)
    as (x0 & x1 & x2 & x3 & x4 & x5 & Hx & A0 & A1 & A2 & A3 & A4 & A5 & Rx).
  exists x0, x1, x2, x3, x4, x5.
  repeat (split; [assumption || lia|]).
  subst n.
  destruct (coordinates_of_normal_form s x0 x1 x2 x3 x4 x5) as [Hlat Hlon];
    try assumption; try lia.
  { repeat constructor; cbn beta; lia. }
  rewrite Hlat, Hlon.
  destruct (coordinates_agree_all (x1 - 65) (x3 - 48) (x5 - 97)) as [E1 _];
    try lia.
  destruct (coordinates_agree_all (x0 - 65) (x2 - 48) (x4 - 97)) as [_ E2];
    try lia.
  replace (65 + (x1 - 65)) with x1 in E1 by lia.
  replace (97 + (x5 - 97)) with x5 in E1 by lia.
  replace (65 + (x0 - 65)) with x0 in E2 by lia.
  replace (97 + (x4 - 97)) with x4 in E2 by lia.
  now rewrite E1, E2.
Qed.

Lemma option_Z_eqb_eq (a : option Z) (b : Z) :
  option_Z_eqb a b = true -> a = Some b.
Proof.
  destruct a as [v|]; cbn; [|discriminate].
  intros E. apply Z.eqb_eq in E. now subst.
Qed.

Lemma cell_holds_coordinates_spec (field square sub : Z) :
  cell_holds_coordinates field square sub = true ->
  within (dec 6 6) (latitude_spec field square sub)
         (centre_latitude field square sub) = true
  /\ within (dec 6 6) (longitude_spec field square sub)
            (centre_longitude field square sub) = true
  /\ latitude_row (latitude_spec field square sub)
     = Some (240 * field + 24 * square + sub)
  /\ longitude_column (longitude_spec field square sub)
     = Some (240 * field + 24 * square + sub).
Proof.
  unfold cell_holds_coordinates. cbv zeta. intros T.
  apply andb_true_iff in T as [T T4]. apply andb_true_iff in T as [T T3].
  apply andb_true_iff in T as [T1 T2].
  repeat split; try assumption; now apply option_Z_eqb_eq.
Qed.

Lemma cell_row_column (field square sub : Z) :
  0 <= field <= 17 -> 0 <= square <= 9 -> 0 <= sub <= 23 ->
  within (dec 6 6) (latitude_spec field square sub)
         (centre_latitude field square sub) = true
  /\ within (dec 6 6) (longitude_spec field square sub)
            (centre_longitude field square sub) = true
  /\ latitude_row (latitude_spec field square sub)
     = Some (240 * field + 24 * square + sub)
  /\ longitude_column (longitude_spec field square sub)
     = Some (240 * field + 24 * square + sub).
Proof.
  intros Hf Hs Hu. apply cell_holds_coordinates_spec.
  now apply (all_cells_spec _ cells_table).
Qed.

(** X9. The coordinates of an accepted locator lie in the subsquare that
    it names: each is within 0.000006 degrees of the centre of the
    subsquare, the latitude lies in the row [240*field + 24*square + sub]
    of the rows of 2.5 minutes counted from the south pole, and the
    longitude in the column of the same number of the columns of 5 minutes
    counted from the antimeridian. *)
Theorem coordinates_lie_in_their_cell `{CaseTables} (s n : string) :
  normalizeGridSquare s = Ok n ->
  validateInput n = None ->
  exists lat lon,
    LatitudeFromGridSquare s = Ok lat /\ LongitudeFromGridSquare s = Ok lon
    /\ within (dec 6 6) lat
         (centre_latitude (byte_at n 1 - 65) (byte_at n 3 - 48)
                          (byte_at n 5 - 97)) = true
    /\ within (dec 6 6) lon
         (centre_longitude (byte_at n 0 - 65) (byte_at n 2 - 48)
                           (byte_at n 4 - 97)) = true
    /\ latitude_row lat
       = Some (240 * (byte_at n 1 - 65) + 24 * (byte_at n 3 - 48)
               + (byte_at n 5 - 97))
    /\ longitude_column lon
       = Some (240 * (byte_at n 0 - 65) + 24 * (byte_at n 2 - 48)
               + (byte_at n 4 - 97)).
Proof.
  intros Hn Hv.
  destruct (coordinates_of_cell s n Hn Hv)
    as (x0 & x1 & x2 & x3 & x4 & x5 & _ & A0 & A1 & A2 & A3 & A4 & A5 & R0
        & R1 & R2 & R3 & R4 & R5 & Hlat & Hlon).
  rewrite A0, A1, A2, A3, A4, A5.
  assert (0 <= x1 - 65 <= 17) as B1 by lia.
  assert (0 <= x3 - 48 <= 9) as B3 by lia.
  assert (0 <= x5 - 97 <= 23) as B5 by lia.
  assert (0 <= x0 - 65 <= 17) as B0 by lia.
  assert (0 <= x2 - 48 <= 9) as B2 by lia.
  assert (0 <= x4 - 97 <= 23) as B4 by lia.
  pose proof (cell_row_column _ _ _ B1 B3 B5) as (W1 & _ & C1 & _).
  pose proof (cell_row_column _ _ _ B0 B2 B4) as (_ & W2 & _ & C2).
  exists (latitude_spec (x1 - 65) (x3 - 48) (x5 - 97)),
    (longitude_spec (x0 - 65) (x2 - 48) (x4 - 97)).
  exact (conj Hlat (conj Hlon (conj W1 (conj W2 (conj C1 C2))))).
Qed.

(** X10. The coordinates determine the locator: two accepted locators
    with the same latitude and the same longitude have the same normal
    form (the rounding to 5 decimal places merges no two subsquares). *)
Theorem coordinates_determine_locator `{CaseTables} (s t n n' : string) :
  normalizeGridSquare s = Ok n -> validateInput n = None ->
  normalizeGridSquare t = Ok n' -> validateInput n' = None ->
  LatitudeFromGridSquare s = LatitudeFromGridSquare t ->
  LongitudeFromGridSquare s = LongitudeFromGridSquare t ->
  n = n'.
Proof.
  intros Hn Hv Hn' Hv' Elat Elon.
  destruct (coordinates_of_cell s n Hn Hv)
    as (x0 & x1 & x2 & x3 & x4 & x5 & -> & _ & _ & _ & _ & _ & _ & R0
        & R1 & R2 & R3 & R4 & R5 & Hlat & Hlon).
  destruct (coordinates_of_cell t n' Hn' Hv')
    as (y0 & y1 & y2 & y3 & y4 & y5 & -> & _ & _ & _ & _ & _ & _ & S0
        & S1 & S2 & S3 & S4 & S5 & Hlat' & Hlon').
  rewrite Hlat, Hlat' in Elat. rewrite Hlon, Hlon' in Elon.
  injection Elat as Elat. injection Elon as Elon.
  pose proof (cell_row_column (x1 - 65) (x3 - 48) (x5 - 97)
                ltac:(lia) ltac:(lia) ltac:(lia)) as (_ & _ & C1 & _).
  pose proof (cell_row_column (x0 - 65) (x2 - 48) (x4 - 97)
                ltac:(lia) ltac:(lia) ltac:(lia)) as (_ & _ & _ & C2).
  pose proof (cell_row_column (y1 - 65) (y3 - 48) (y5 - 97)
                ltac:(lia) ltac:(lia) ltac:(lia)) as (_ & _ & D1 & _).
  pose proof (cell_row_column (y0 - 65) (y2 - 48) (y4 - 97)
                ltac:(lia) ltac:(lia) ltac:(lia)) as (_ & _ & _ & D2).
  rewrite Elat in C1. rewrite Elon in C2.
  rewrite C1 in D1. rewrite C2 in D2.
  assert (forall a b : Z, Some a = Some b -> a = b) as Some_inj
    by (intros a b E; now injection E).
  apply Some_inj in D1, D2.
  assert (x1 = y1 /\ x3 = y3 /\ x5 = y5) as (-> & -> & ->) by lia.
  assert (x0 = y0 /\ x2 = y2 /\ x4 = y4) as (-> & -> & ->) by lia.
  reflexivity.
Qed.

(** ** The entry points on two locators *)

Lemma extractCoordinates_Ok `{CaseTables} (s : string)
      (c : gridSquareCoordinates) :
  extractCoordinates s = Ok c -> valid_locator s.
Proof.
  intros Hc.
  destruct (normalizeGridSquare s) as [n|m|p] eqn:Hn.
  - destruct (validateInput n) as [m|] eqn:Hv.
    + destruct (coordinates_rejected s n m Hn Hv) as (_ & _ & E).
      rewrite E in Hc. discriminate Hc.
    + now exists n.
  - now apply normalizeGridSquare_no_error in Hn.
  - destruct (coordinates_panic s p Hn) as (_ & _ & E).
    rewrite E in Hc. discriminate Hc.
Qed.

Lemma both_extracted `{CaseTables} (l r : string) :
  valid_locator l /\ valid_locator r <->
  exists lc rc, extractCoordinates l = Ok lc /\ extractCoordinates r = Ok rc.
Proof.
  split.
  - intros [Hl Hr].
    destruct (valid_locator_coordinates l Hl) as [lc Hlc].
    destruct (valid_locator_coordinates r Hr) as [rc Hrc].
    now exists lc, rc.
  - intros (lc & rc & Hlc & Hrc).
    split; eapply extractCoordinates_Ok; eassumption.
Qed.

(** The five entry points, once the coordinates are extracted. *)
Lemma entry_points_extracted `{CaseTables} `{MathLib} `{Conversions}
      (l r : string) (lc rc : gridSquareCoordinates) :
  extractCoordinates l = Ok lc -> extractCoordinates r = Ok rc ->
  let sp := CalculateBearing (Latitude lc) (Longitude lc)
                             (Latitude rc) (Longitude rc) in
  let km := Ceil (earthRad * central_angle (haversine_a lc rc))%f64 in
  let mi := Ceil (km * kmToMiles)%f64 in
  let lkm := Ceil (earthCircumferenceKm - km)%f64 in
  let lmi := Ceil (lkm * kmToMiles)%f64 in
  GetShortPathBearing l r = Ok sp
  /\ GetShortPathDistance l r = Ok (km, mi)
  /\ GetLongPathBearing l r = Ok (opposite_bearing sp)
  /\ GetLongPathDistance l r = Ok (lkm, lmi)
  /\ GetLocation l r
     = Ok {| LocalGridSquare := l;
             RemoteGridSquare := r;
             ShortPathBearing := sp;
             LongPathBearing := opposite_bearing sp;
             ShortPathDistanceKm := int64 km;
             ShortPathDistanceMiles := int64 mi;
             LongPathDistanceKm := int64 lkm;
             LongPathDistanceMiles := int64 lmi |}.
Proof.
  intros Hlc Hrc. cbv zeta.
  unfold GetLocation, GetLongPathDistance, GetLongPathBearing,
    GetShortPathDistance, GetShortPathBearing.
  rewrite Hlc, Hrc. repeat split.
Qed.

Lemma entries_rejected_local `{CaseTables} `{MathLib} `{Conversions}
      (l r m : string) :
  extractCoordinates l = Err m ->
  GetShortPathBearing l r = Err ("invalid local grid square: " +++ m)
  /\ GetShortPathDistance l r = Err ("invalid local grid square: " +++ m)
  /\ GetLongPathBearing l r
     = Err ("error calculating short path bearing: "
            +++ "invalid local grid square: " +++ m)
  /\ GetLongPathDistance l r = Err ("invalid local grid square: " +++ m)
  /\ GetLocation l r
     = Err ("failed to calculate short path bearing: "
            +++ "invalid local grid square: " +++ m).
Proof.
  intros Hl.
  unfold GetLocation, GetLongPathDistance, GetLongPathBearing,
    GetShortPathDistance, GetShortPathBearing.
  rewrite Hl. repeat split.
Qed.

Lemma entries_rejected_remote `{CaseTables} `{MathLib} `{Conversions}
      (l r m : string) (lc : gridSquareCoordinates) :
  extractCoordinates l = Ok lc ->
  extractCoordinates r = Err m ->
  GetShortPathBearing l r = Err ("invalid remote grid square: " +++ m)
  /\ GetShortPathDistance l r = Err ("invalid remote grid square: " +++ m)
  /\ GetLongPathBearing l r
     = Err ("error calculating short path bearing: "
            +++ "invalid remote grid square: " +++ m)
  /\ GetLongPathDistance l r = Err ("invalid remote grid square: " +++ m)
  /\ GetLocation l r
     = Err ("failed to calculate short path bearing: "
            +++ "invalid remote grid square: " +++ m).
Proof.
  intros Hl Hr.
  unfold GetLocation, GetLongPathDistance, GetLongPathBearing,
    GetShortPathDistance, GetShortPathBearing.
  rewrite Hl, Hr. repeat split.
Qed.

Lemma entries_panic `{CaseTables} `{MathLib} `{Conversions}
      (l r p : string) :
  extractCoordinates l = Panic p
  \/ (exists lc, extractCoordinates l = Ok lc)
     /\ extractCoordinates r = Panic p ->
  GetShortPathBearing l r = Panic p
  /\ GetShortPathDistance l r = Panic p
  /\ GetLongPathBearing l r = Panic p
  /\ GetLongPathDistance l r = Panic p
  /\ GetLocation l r = Panic p.
Proof.
  unfold GetLocation, GetLongPathDistance, GetLongPathBearing,
    GetShortPathDistance, GetShortPathBearing.
  intros [Hl | [[lc Hl] Hr]]; rewrite Hl, ?Hr; repeat split.
Qed.

(** An entry point that returns has extracted both coordinates. *)
Lemma entry_points_Ok_inv `{CaseTables} `{MathLib} `{Conversions}
      (l r : string) :
  let extracted :=
    exists lc rc,
      extractCoordinates l = Ok lc /\ extractCoordinates r = Ok rc in
  (forall b, GetShortPathBearing l r = Ok b -> extracted)
  /\ (forall d, GetShortPathDistance l r = Ok d -> extracted)
  /\ (forall b, GetLongPathBearing l r = Ok b -> extracted)
  /\ (forall d, GetLongPathDistance l r = Ok d -> extracted)
  /\ (forall loc, GetLocation l r = Ok loc -> extracted).
Proof.
  cbv zeta.
  destruct (extractCoordinates l) as [lc|m|p] eqn:Hl.
  - destruct (extractCoordinates r) as [rc|m|p] eqn:Hr.
    + repeat split; eauto.
    + destruct (entries_rejected_remote l r m lc Hl Hr)
        as (E1 & E2 & E3 & E4 & E5).
      repeat split; intros; congruence.
    + destruct (entries_panic l r p) as (E1 & E2 & E3 & E4 & E5);
        [right; eauto|].
      repeat split; intros; congruence.
  - destruct (entries_rejected_local l r m Hl) as (E1 & E2 & E3 & E4 & E5).
    repeat split; intros; congruence.
  - destruct (entries_panic l r p) as (E1 & E2 & E3 & E4 & E5); [now left|].
    repeat split; intros; congruence.
Qed.

(** X11. The five entry points on two locators accept the same inputs:
    each of [GetShortPathBearing], [GetShortPathDistance],
    [GetLongPathBearing], [GetLongPathDistance] and [GetLocation] returns
    a result exactly when both locators are accepted. *)
Theorem entry_points_accept_alike `{CaseTables} `{MathLib} `{Conversions}
        (l r : string) :
  ((exists b, GetShortPathBearing l r = Ok b)
   <-> valid_locator l /\ valid_locator r)
  /\ ((exists d, GetShortPathDistance l r = Ok d)
      <-> valid_locator l /\ valid_locator r)
  /\ ((exists b, GetLongPathBearing l r = Ok b)
      <-> valid_locator l /\ valid_locator r)
  /\ ((exists d, GetLongPathDistance l r = Ok d)
      <-> valid_locator l /\ valid_locator r)
  /\ ((exists loc, GetLocation l r = Ok loc)
      <-> valid_locator l /\ valid_locator r).
Proof.
  pose proof (entry_points_Ok_inv l r) as (I1 & I2 & I3 & I4 & I5).
  assert (valid_locator l /\ valid_locator r ->
          (exists b, GetShortPathBearing l r = Ok b)
          /\ (exists d, GetShortPathDistance l r = Ok d)
          /\ (exists b, GetLongPathBearing l r = Ok b)
          /\ (exists d, GetLongPathDistance l r = Ok d)
          /\ (exists loc, GetLocation l r = Ok loc)) as Hok.
  { intros Hv. apply both_extracted in Hv as (lc & rc & Hlc & Hrc).
    destruct (entry_points_extracted l r lc rc Hlc Hrc)
      as (E1 & E2 & E3 & E4 & E5).
    eauto 10. }
  repeat apply conj; try (intros Hv; now apply Hok in Hv);
    intros [x Hx]; apply both_extracted; eauto.
Qed.

(** X12. The message for a rejected locator.  When [validateInput]
    rejects the normalised local locator with the message [m], or the
    local locator is accepted and the normalised remote one is rejected
    with [m], the two short-path operations and [GetLongPathDistance]
    return "invalid local grid square: m" (or "invalid remote grid square:
    m"), [GetLongPathBearing] puts "error calculating short path bearing: "
    before it and [GetLocation] "failed to calculate short path
    bearing: ".  A rejected local locator is reported whatever the remote
    one is. *)
Theorem rejected_locator_messages `{CaseTables} `{MathLib} `{Conversions}
        (l r n m side : string) :
  (normalizeGridSquare l = Ok n /\ validateInput n = Some m
   /\ side = "invalid local grid square: ")
  \/ (valid_locator l /\ normalizeGridSquare r = Ok n
      /\ validateInput n = Some m /\ side = "invalid remote grid square: ") ->
  GetShortPathBearing l r = Err (side +++ m)
  /\ GetShortPathDistance l r = Err (side +++ m)
  /\ GetLongPathBearing l r
     = Err ("error calculating short path bearing: " +++ side +++ m)
  /\ GetLongPathDistance l r = Err (side +++ m)
  /\ GetLocation l r
     = Err ("failed to calculate short path bearing: " +++ side +++ m).
Proof.
  intros [(Hn & Hv & ->) | (Hl & Hn & Hv & ->)].
  - destruct (coordinates_rejected l n m Hn Hv) as (_ & _ & E).
    exact (entries_rejected_local l r m E).
  - destruct (valid_locator_coordinates l Hl) as [lc El].
    destruct (coordinates_rejected r n m Hn Hv) as (_ & _ & E).
    exact (entries_rejected_remote l r m lc El E).
Qed.

(** X13. [GetLocation] fails only where [GetShortPathBearing] fails:
    with its error after "failed to calculate short path bearing: ", or
    with its panic.  Where the bearing is returned the other three
    operations return too (their error branches in [GetLocation] are never
    taken), and the result holds the two locators as they were given, the
    two bearings, and the four distances converted to [int64]. *)
Theorem GetLocation_gathers `{CaseTables} `{MathLib} `{Conversions}
        (l r : string) :
  match GetShortPathBearing l r with
  | Err m =>
    GetLocation l r = Err ("failed to calculate short path bearing: " +++ m)
  | Panic p => GetLocation l r = Panic p
  | Ok sp =>
    exists km mi lp lkm lmi,
      GetShortPathDistance l r = Ok (km, mi)
      /\ GetLongPathBearing l r = Ok lp
      /\ GetLongPathDistance l r = Ok (lkm, lmi)
      /\ GetLocation l r
         = Ok {| LocalGridSquare := l;
                 RemoteGridSquare := r;
                 ShortPathBearing := sp;
                 LongPathBearing := lp;
                 ShortPathDistanceKm := int64 km;
                 ShortPathDistanceMiles := int64 mi;
                 LongPathDistanceKm := int64 lkm;
                 LongPathDistanceMiles := int64 lmi |}
  end.
Proof.
  destruct (GetShortPathBearing l r) as [sp|m|p] eqn:Hsp.
  - destruct (entry_points_Ok_inv l r) as (I1 & _).
    destruct (I1 sp Hsp) as (lc & rc & Hlc & Hrc).
    destruct (entry_points_extracted l r lc rc Hlc Hrc)
      as (E1 & E2 & E3 & E4 & E5).
    rewrite Hsp in E1. injection E1 as ->.
    eauto 10.
  - unfold GetLocation. now rewrite Hsp.
  - unfold GetLocation. now rewrite Hsp.
Qed.

(** X14. The entry points on two locators do not depend on the letter
    case: for accepted locators, a case variant of each gives the same
    bearings and the same distances, and [GetLocation] gives the same
    numbers with the locators echoed as they were given. *)
Theorem entry_points_case_insensitive `{CaseTables} `{MathLib} `{Conversions}
        (l r l' r' : string) :
  valid_locator l -> valid_locator r ->
  case_variant l l' -> case_variant r r' ->
  GetShortPathBearing l' r' = GetShortPathBearing l r
  /\ GetShortPathDistance l' r' = GetShortPathDistance l r
  /\ GetLongPathBearing l' r' = GetLongPathBearing l r
  /\ GetLongPathDistance l' r' = GetLongPathDistance l r
  /\ exists loc,
       GetLocation l r = Ok loc
       /\ GetLocation l' r' = Ok (with_locators l' r' loc).
Proof.
  intros (n & Hn & Hv) (m & Hm & Hw) Hl Hr.
  pose proof (case_variant_normal_form l l' n Hn Hv Hl) as Hn'.
  pose proof (case_variant_normal_form r r' m Hm Hw Hr) as Hm'.
  assert (extractCoordinates l' = extractCoordinates l) as El
      by (unfold extractCoordinates, LatitudeFromGridSquare,
          LongitudeFromGridSquare; now rewrite Hn, Hn').
  assert (extractCoordinates r' = extractCoordinates r) as Er
      by (unfold extractCoordinates, LatitudeFromGridSquare,
          LongitudeFromGridSquare; now rewrite Hm, Hm').
  destruct (valid_locator_coordinates l) as [lc Hlc]; [now exists n|].
  destruct (valid_locator_coordinates r) as [rc Hrc]; [now exists m|].
  rewrite <- El in Hlc. rewrite <- Er in Hrc.
  destruct (entry_points_extracted l' r' lc rc Hlc Hrc)
    as (E1 & E2 & E3 & E4 & E5).
  rewrite El in Hlc. rewrite Er in Hrc.
  destruct (entry_points_extracted l r lc rc Hlc Hrc)
    as (F1 & F2 & F3 & F4 & F5).
  rewrite E1, E2, E3, E4, F1, F2, F3, F4.
  repeat (split; [reflexivity|]).
  eexists. split; [exact F5|]. rewrite E5. reflexivity.
Qed.

(** ** The gathered result on whole kilometres *)

(** Every whole number of kilometres from 0 to 20016, the ceiling of half
    the circumference, evaluated. *)
Lemma whole_km_table :
  forallb whole_km_agrees (zrange 0 (Z.to_nat 20017)) = true.
Proof. vm_cast_no_check (eq_refl true). Qed.

Lemma whole_km_agrees_spec (s : Z) :
  whole_km_agrees s = true ->
  let longPathKm := Ceil (earthCircumferenceKm - of_Z s)%f64 in
  truncate (of_Z s) = Some s
  /\ truncate (Ceil (of_Z s * kmToMiles)%f64) = Some (miles_of_km s)
  /\ truncate longPathKm = Some (40031 - s)
  /\ truncate (Ceil (longPathKm * kmToMiles)%f64)
     = Some (miles_of_km (40031 - s)).
Proof.
  unfold whole_km_agrees. cbv zeta. intros T.
  apply andb_true_iff in T as [T T4]. apply andb_true_iff in T as [T T3].
  apply andb_true_iff in T as [T1 T2].
  repeat split; now apply option_Z_eqb_eq.
Qed.

Lemma whole_km_spec (s : Z) :
  0 <= s <= 20016 ->
  let longPathKm := Ceil (earthCircumferenceKm - of_Z s)%f64 in
  truncate (of_Z s) = Some s
  /\ truncate (Ceil (of_Z s * kmToMiles)%f64) = Some (miles_of_km s)
  /\ truncate longPathKm = Some (40031 - s)
  /\ truncate (Ceil (longPathKm * kmToMiles)%f64)
     = Some (miles_of_km (40031 - s)).
Proof.
  intros Hs. apply whole_km_agrees_spec.
  apply (forallb_zrange _ _ _ whole_km_table s). lia.
Qed.

Lemma int64_of_truncate `{Conversions} (x : float64) (n : Z) :
  truncate x = Some n -> - 2 ^ 63 <= n <= 2 ^ 63 - 1 -> int64 x = n.
Proof.
  intros Hx Hn. unfold int64. rewrite Hx.
  now rewrite in_range_true by assumption.
Qed.

Lemma miles_of_km_range (s : Z) :
  0 <= s <= 40031 -> 0 <= miles_of_km s <= 40031.
Proof.
  intros Hs. unfold miles_of_km. split.
  - apply Z.div_pos; lia.
  - apply Z.div_le_upper_bound; lia.
Qed.

(** X15. When the short-path kilometres are a whole number [s] from 0 to
    20016 (the ceiling of half the circumference), [GetLocation] reports
    [s] and [40031 - s] kilometres, which add up to 40031, and for each
    the least whole number of miles not below the kilometres times
    0.621371: the arithmetic of [float64], the ceilings and the
    conversions to [int64] lose nothing. *)
Theorem GetLocation_whole_km `{CaseTables} `{MathLib} `{Conversions}
        (l r : string) (s : Z) (shortMi : float64) :
  GetShortPathDistance l r = Ok (of_Z s, shortMi) ->
  0 <= s <= 20016 ->
  exists loc,
    GetLocation l r = Ok loc
    /\ ShortPathDistanceKm loc = s
    /\ ShortPathDistanceMiles loc = miles_of_km s
    /\ LongPathDistanceKm loc = 40031 - s
    /\ LongPathDistanceMiles loc = miles_of_km (40031 - s).
Proof.
  intros Hshort Hs.
  destruct (entry_points_Ok_inv l r) as (_ & I2 & _).
  destruct (I2 _ Hshort) as (lc & rc & Hlc & Hrc).
  destruct (entry_points_extracted l r lc rc Hlc Hrc)
    as (_ & E2 & _ & _ & E5).
  rewrite Hshort in E2.
  match type of E2 with
  | Ok (?a, _) = Ok (?c, _) => assert (c = a) as Hkm by congruence
  end.
  rewrite Hkm in E5. eexists. split; [exact E5|].
  cbn [ShortPathDistanceKm ShortPathDistanceMiles LongPathDistanceKm
       LongPathDistanceMiles].
  destruct (whole_km_spec s Hs) as (T1 & T2 & T3 & T4).
  pose proof (miles_of_km_range s ltac:(lia)).
  pose proof (miles_of_km_range (40031 - s) ltac:(lia)).
  repeat split; apply int64_of_truncate; assumption || lia.
Qed.


(** ** Instances of the further properties *)

Lemma normalizeGridSquare_idempotent_witness :
  normalizeGridSquare (H := plainTables) "JN58td" = Ok "JN58td".
Proof.
  apply (@normalizeGridSquare_idempotent plainTables "jn58TD" "JN58td").
  vm_compute; reflexivity.
Defined.

Lemma canonical_is_fixed_point_witness :
  normalizeGridSquare (H := plainTables) "FN31pr" = Ok "FN31pr".
Proof.
  apply (@canonical_is_fixed_point plainTables "FN31pr").
  vm_compute; reflexivity.
Defined.

Lemma coordinates_lie_in_their_cell_witness :
  exists lat lon,
    LatitudeFromGridSquare (H := plainTables) "jn58TD" = Ok lat
    /\ LongitudeFromGridSquare (H := plainTables) "jn58TD" = Ok lon
    /\ within (dec 6 6) lat
         (centre_latitude (byte_at "JN58td" 1 - 65) (byte_at "JN58td" 3 - 48)
                          (byte_at "JN58td" 5 - 97)) = true
    /\ within (dec 6 6) lon
         (centre_longitude (byte_at "JN58td" 0 - 65) (byte_at "JN58td" 2 - 48)
                           (byte_at "JN58td" 4 - 97)) = true
    /\ latitude_row lat
       = Some (240 * (byte_at "JN58td" 1 - 65) + 24 * (byte_at "JN58td" 3 - 48)
               + (byte_at "JN58td" 5 - 97))
    /\ longitude_column lon
       = Some (240 * (byte_at "JN58td" 0 - 65) + 24 * (byte_at "JN58td" 2 - 48)
               + (byte_at "JN58td" 4 - 97)).
Proof.
  apply (@coordinates_lie_in_their_cell plainTables "jn58TD" "JN58td");
    vm_compute; reflexivity.
Defined.

Lemma coordinates_determine_locator_witness : "JN58td" = "JN58td".
Proof.
  apply (@coordinates_determine_locator plainTables
           "jn58td" "JN58TD" "JN58td" "JN58td");
    vm_compute; reflexivity.
Defined.

Lemma rejected_locator_messages_witness :
  GetShortPathBearing (H := plainTables) (H0 := goMath) "zn58TD" "FN31pr"
  = Err ("invalid local grid square: "
         +++ "invalid gridsquare format: ZN58td (first character must be A-R)")
  /\ GetShortPathDistance (H := plainTables) (H0 := goMath) "zn58TD" "FN31pr"
     = Err ("invalid local grid square: "
            +++ "invalid gridsquare format: ZN58td (first character must be A-R)")
  /\ GetLongPathBearing (H := plainTables) (H0 := goMath) "zn58TD" "FN31pr"
     = Err ("error calculating short path bearing: "
            +++ "invalid local grid square: "
            +++ "invalid gridsquare format: ZN58td (first character must be A-R)")
  /\ GetLongPathDistance (H := plainTables) (H0 := goMath) "zn58TD" "FN31pr"
     = Err ("invalid local grid square: "
            +++ "invalid gridsquare format: ZN58td (first character must be A-R)")
  /\ GetLocation (H := plainTables) (H0 := goMath) (H1 := plainConversions)
       "zn58TD" "FN31pr"
     = Err ("failed to calculate short path bearing: "
            +++ "invalid local grid square: "
            +++ "invalid gridsquare format: ZN58td (first character must be A-R)").
Proof.
  apply (@rejected_locator_messages plainTables goMath plainConversions
           "zn58TD" "FN31pr" "ZN58td").
  left. repeat split; vm_compute; reflexivity.
Defined.

Lemma entry_points_case_insensitive_witness :
  GetShortPathBearing (H := plainTables) (H0 := goMath) "jn58TD" "fn31PR"
  = GetShortPathBearing (H := plainTables) (H0 := goMath) "JN58td" "FN31pr"
  /\ GetShortPathDistance (H := plainTables) (H0 := goMath) "jn58TD" "fn31PR"
     = GetShortPathDistance (H := plainTables) (H0 := goMath) "JN58td" "FN31pr"
  /\ GetLongPathBearing (H := plainTables) (H0 := goMath) "jn58TD" "fn31PR"
     = GetLongPathBearing (H := plainTables) (H0 := goMath) "JN58td" "FN31pr"
  /\ GetLongPathDistance (H := plainTables) (H0 := goMath) "jn58TD" "fn31PR"
     = GetLongPathDistance (H := plainTables) (H0 := goMath) "JN58td" "FN31pr"
  /\ exists loc,
       GetLocation (H := plainTables) (H0 := goMath) (H1 := plainConversions)
         "JN58td" "FN31pr" = Ok loc
       /\ GetLocation (H := plainTables) (H0 := goMath)
            (H1 := plainConversions) "jn58TD" "fn31PR"
          = Ok (with_locators "jn58TD" "fn31PR" loc).
Proof.
  apply (@entry_points_case_insensitive plainTables goMath plainConversions
           "JN58td" "FN31pr" "jn58TD" "fn31PR" valid_JN58td valid_FN31pr);
    vm_compute; repeat constructor.
Defined.

Lemma GetLocation_whole_km_witness :
  exists loc,
    GetLocation (H := plainTables) (H0 := goMath) (H1 := plainConversions)
      "JN58td" "FN31pr" = Ok loc
    /\ ShortPathDistanceKm loc = 6336
    /\ ShortPathDistanceMiles loc = miles_of_km 6336
    /\ LongPathDistanceKm loc = 40031 - 6336
    /\ LongPathDistanceMiles loc = miles_of_km (40031 - 6336).
Proof.
  apply (@GetLocation_whole_km plainTables goMath plainConversions
           "JN58td" "FN31pr" 6336 (of_Z 3938));
    [vm_compute; reflexivity | lia].
Defined.

Lemma distance_sum_exact_for_whole_km_witness :
  exists longKm longMi,
    GetLongPathDistance (H := plainTables) (H0 := goMath) "JN58td" "FN31pr"
    = Ok (longKm, longMi)
    /\ (longKm + of_Z 6336)%f64 = of_Z 40031.
Proof.
  apply (@distance_sum_exact_for_whole_km plainTables goMath
           "JN58td" "FN31pr" 6336 (of_Z 3938));
    [vm_compute; reflexivity | lia].
Defined.
